(** * Debt-payoff amortization engine: a shallow embedding

    The Python module [nodes/executors/finance_debt_payoff.py] computes a
    month-by-month debt payoff plan, validates it and stores it.  This file
    embeds that module function by function and proves (or refutes) the
    properties its specification states.

    Python's [float] is IEEE 754 binary64.  The engine is written once over
    an interface of the float operations it uses ([PyFloat]); the instance
    [binary64] interprets it with Rocq's primitive binary64 floats, bit for
    bit, and the instance [exact] interprets it with exact rationals, the
    arithmetic in which the specification reasons about money.

    Beside the module, the file embeds what surrounds the executor in the
    graph: the content of its answers, the previous parameters a later
    request finds in the conversation, the router with its intent registry,
    and the condition that sends a conversation to the router. *)

From Stdlib Require Import ZArith Lia Ascii String Floats Uint63 QArith Qcanon Qcabs.
From stdpp Require Import gmap strings list pretty.

Local Open Scope Z_scope.
Set Warnings "-register-all,-inexact-float".

(** ** Exceptions

    A Python call either returns a value or raises.  Only the exception
    classes the module can meet are listed; [ValidationError] is pydantic's. *)

Inductive exn : Set :=
  | KeyError
  | TypeError
  | ValueError
  | OverflowError
  | ZeroDivisionError
  | ValidationError.

Inductive result (A : Type) : Type :=
  | Ok (a : A)
  | Raise (e : exn).

Arguments Ok {A} a.
Arguments Raise {A} e.

Definition rbind {A B : Type} (r : result A) (k : A -> result B) : result B :=
  match r with
  | Ok a => k a
  | Raise e => Raise e
  end.

Notation "'let!' x := e 'in' k" := (rbind e (fun x => k))
  (at level 10, x name, e at level 200, k at level 200).

(** ** The float operations the module uses *)

Class PyFloat (F : Type) : Type := {
  (** the decimal literal [m * 10^-k], e.g. [f_lit 1 2] is [0.01] *)
  f_lit : Z -> nat -> F;
  (** [float(n)] for an [int] *)
  f_of_int : Z -> result F;
  (** [float(s)] for a [str] *)
  f_of_str : string -> result F;
  (** [int(x)] for a [float] *)
  f_to_int : F -> result Z;
  (** [int(s)] for a [str] *)
  int_of_str : string -> result Z;
  f_add : F -> F -> F;
  f_sub : F -> F -> F;
  f_mul : F -> F -> F;
  (** the quotient when the divisor is not zero *)
  f_div : F -> F -> F;
  (** [x ** y] *)
  f_pow : F -> F -> result F;
  (** [round(x, ndigits)] *)
  f_round : nat -> F -> F;
  f_abs : F -> F;
  f_eqb : F -> F -> bool;
  f_ltb : F -> F -> bool;
  f_leb : F -> F -> bool;
  (** [repr(x)], as an f-string prints a float *)
  f_repr : F -> string
}.

Declare Scope py_scope.
Delimit Scope py_scope with py.
Notation "x +! y" := (f_add x y) (at level 50, left associativity) : py_scope.
Notation "x -! y" := (f_sub x y) (at level 50, left associativity) : py_scope.
Notation "x *! y" := (f_mul x y) (at level 40, left associativity) : py_scope.
Notation "x <! y" := (f_ltb x y) (at level 70, no associativity) : py_scope.
Notation "x <=! y" := (f_leb x y) (at level 70, no associativity) : py_scope.
Notation "x ==! y" := (f_eqb x y) (at level 70, no associativity) : py_scope.

Section Values.
Context {F : Type} {num : PyFloat F}.
Local Open Scope py_scope.

(** The values [json.loads] produces. A JSON object is kept as the list of
    its items. *)
Inductive pyval : Type :=
  | PNone
  | PBool (b : bool)
  | PInt (n : Z)
  | PFloat (x : F)
  | PStr (s : string)
  | PList (l : list pyval)
  | PDict (d : list (string * pyval)).

Definition zero : F := f_lit 0 0.

(** [x / y] *)
Definition py_div (x y : F) : result F :=
  if y ==! zero then Raise ZeroDivisionError else Ok (f_div x y).

(** [min(a, b)] and [max(0, y)]: the builtin keeps its first argument unless
    a later one compares strictly smaller (larger). *)
Definition py_min (a b : F) : F := if b <! a then b else a.
Definition py_max0 (y : F) : F := if zero <! y then y else zero.

(** [sum(xs)]: additions from [0], left to right. *)
Definition py_sum (xs : list F) : F := fold_left f_add xs zero.

(** [float(v)] *)
Definition py_float (v : pyval) : result F :=
  match v with
  | PFloat x => Ok x
  | PInt n => f_of_int n
  | PBool b => Ok (f_lit (if b then 1 else 0) 0)
  | PStr s => f_of_str s
  | PNone | PList _ | PDict _ => Raise TypeError
  end.

(** [int(v)] *)
Definition py_int (v : pyval) : result Z :=
  match v with
  | PInt n => Ok n
  | PBool b => Ok (if b then 1 else 0)
  | PFloat x => f_to_int x
  | PStr s => int_of_str s
  | PNone | PList _ | PDict _ => Raise TypeError
  end.

(** [d[k]] and [d.get(k, dflt)] on the top-level mapping *)
Definition getitem (d : gmap string pyval) (k : string) : result pyval :=
  match d !! k with
  | Some v => Ok v
  | None => Raise KeyError
  end.

Definition get_default (d : gmap string pyval) (k : string) (dflt : pyval) : pyval :=
  default dflt (d !! k).

(** the same on a nested JSON object *)
Fixpoint items_lookup (d : list (string * pyval)) (k : string) : option pyval :=
  match d with
  | [] => None
  | (k', v) :: rest => if String.eqb k' k then Some v else items_lookup rest k
  end.

(** iterating a value in a [for] loop *)
Definition py_iter (v : pyval) : result (list pyval) :=
  match v with
  | PList l => Ok l
  | PDict d => Ok (map (fun kv => PStr (fst kv)) d)
  | PStr s => Ok (map (fun c => PStr (String c EmptyString)) (String.list_ascii_of_string s))
  | PNone | PBool _ | PInt _ | PFloat _ => Raise TypeError
  end.

End Values.

Arguments pyval F : clear implicits.

(** ** The schema ([schemas/finance_debt_plan.py])

    Three pydantic models.  Constructing one validates its field
    constraints ([gt], [ge], [le]) and raises [ValidationError] when one
    fails; that is the [new_...] function of each record. *)

Section Engine.
Context {F : Type} {num : PyFloat F}.
Local Open Scope py_scope.

Record OneTimePayment : Type := {
  otp_month : Z;
  otp_amount : F;
  otp_description : option string
}.

Record MonthlyPaymentRow : Type := {
  row_month : Z;
  row_salary : F;
  row_fixed_expenses : F;
  row_savings_amount : F;
  row_debt_payment : F;
  row_one_time_payment : F;
  row_total_payment : F;
  row_interest_charged : F;
  row_remaining_balance : F
}.

Record FinanceDebtPlan : Type := {
  plan_name : string;
  plan_salary : F;
  plan_fixed_expenses : F;
  plan_initial_debt : F;
  plan_monthly_interest_rate : F;
  plan_months : Z;
  plan_savings_rate : F;
  plan_one_time_payments : list OneTimePayment;
  plan_monthly_rows : list MonthlyPaymentRow;
  plan_final_balance : F;
  plan_total_saved : F;
  plan_total_interest_paid : F;
  plan_total_regular_payments : F;
  plan_total_one_time_payments : F;
  plan_is_debt_cleared : bool;
  plan_months_to_payoff : option Z;
  plan_recommended_payment : option F;
  plan_validation_errors : list string;
  plan_created_date : string;
  plan_payoff_strategy : string
}.

(** [OneTimePayment(month=..., amount=..., description=...)]:
    [month] has [gt=0], [amount] has [gt=0], [description] is an optional
    string. *)
Definition new_OneTimePayment (month : Z) (amount : F) (description : pyval F)
  : result OneTimePayment :=
  if negb (0 <? month) then Raise ValidationError
  else if negb (zero <! amount) then Raise ValidationError
  else match description with
       | PStr s => Ok {| otp_month := month; otp_amount := amount; otp_description := Some s |}
       | PNone => Ok {| otp_month := month; otp_amount := amount; otp_description := None |}
       | _ => Raise ValidationError
       end.

(** The field constraints of [FinanceDebtPlan]: [salary], [fixed_expenses],
    [initial_debt] and [months] have [gt=0]; [monthly_interest_rate] and
    [savings_rate] have [ge=0, le=1]. *)
Definition plan_constraints (salary fixed_expenses initial_debt monthly_rate : F)
  (months : Z) (savings_rate : F) : bool :=
  (zero <! salary) && (zero <! fixed_expenses) && (zero <! initial_debt)
  && (zero <=! monthly_rate) && (monthly_rate <=! f_lit 1 0)
  && (0 <? months)
  && (zero <=! savings_rate) && (savings_rate <=! f_lit 1 0).

Definition new_FinanceDebtPlan (p : FinanceDebtPlan) : result FinanceDebtPlan :=
  if plan_constraints (plan_salary p) (plan_fixed_expenses p) (plan_initial_debt p)
       (plan_monthly_interest_rate p) (plan_months p) (plan_savings_rate p)
  then Ok p else Raise ValidationError.

(** ** [_calc_required_payment] *)

Definition _calc_required_payment (debt rate : F) (months : Z) (bonus : F) : result F :=
  if rate ==! zero then
   (let! m := f_of_int months in
    let! q := py_div (debt -! bonus) m in
    Ok (f_round 2 (py_max0 q)))
  else
   (let effective := py_max0 (debt -! bonus) in
    let! e := f_of_int (- months) in
    let! p := f_pow (f_lit 1 0 +! rate) e in
    let! payment := py_div (rate *! effective) (f_lit 1 0 -! p) in
    Ok (f_round 2 payment)).

(** ** [_calculate_debt_payoff_plan]

    The function has three parts: it parses the parameters, runs the
    month loop, and builds the plan.  The values the first part leaves
    in local variables are the record [inputs]. *)

Record inputs : Type := {
  in_salary : F;
  in_fixed_expenses : F;
  in_initial_debt : F;
  in_monthly_rate : F;
  in_months : Z;
  in_savings_rate : F;
  in_savings_amount : F;
  in_regular_payment : F;
  in_one_time_payments : list OneTimePayment;
  in_one_time_by_month : gmap Z F
}.

(** The loop over [params.get("one_time_payments", [])]: an entry that is
    a dict with the keys [month] and [amount] is appended to
    [one_time_payments] and written to [one_time_by_month] under its month;
    any other entry is skipped. *)
Fixpoint parse_one_time_payments (items : list (pyval F))
  (one_time_payments : list OneTimePayment) (one_time_by_month : gmap Z F)
  : result (list OneTimePayment * gmap Z F) :=
  match items with
  | [] => Ok (one_time_payments, one_time_by_month)
  | otp :: rest =>
      match otp with
      | PDict d =>
          match items_lookup d "month", items_lookup d "amount" with
          | Some vm, Some va =>
              let! m := py_int vm in
              let! a := py_float va in
              let amt := f_round 2 a in
              let desc := default (PStr "One-time payment") (items_lookup d "description") in
              let! o := new_OneTimePayment m amt desc in
              parse_one_time_payments rest (one_time_payments ++ [o])
                (<[m := amt]> one_time_by_month)
          | _, _ => parse_one_time_payments rest one_time_payments one_time_by_month
          end
      | _ => parse_one_time_payments rest one_time_payments one_time_by_month
      end
  end.

Definition parse_params (params : gmap string (pyval F)) : result inputs :=
  let! v := getitem params "salary" in
  let! x := py_float v in
  let salary := f_round 2 x in
  let! v := getitem params "fixed_expenses" in
  let! x := py_float v in
  let fixed_expenses := f_round 2 x in
  let! v := getitem params "debt_amount" in
  let! x := py_float v in
  let initial_debt := f_round 2 x in
  let! v := getitem params "interest_rate_percent" in
  let! rate_percent := py_float v in
  let! v := getitem params "months" in
  let! months := py_int v in
  let! savings_percent := py_float (get_default params "savings_rate_percent" (PInt 10)) in
  let! q := py_div rate_percent (f_lit 100 0) in
  let monthly_rate := f_round 6 q in
  let! q := py_div savings_percent (f_lit 100 0) in
  let savings_rate := f_round 4 q in
  let savings_amount := f_round 2 (salary *! savings_rate) in
  let regular_payment := f_round 2 (salary -! fixed_expenses -! savings_amount) in
  let! items := py_iter (get_default params "one_time_payments" (PList [])) in
  let! parsed := parse_one_time_payments items [] ∅ in
  Ok {| in_salary := salary;
        in_fixed_expenses := fixed_expenses;
        in_initial_debt := initial_debt;
        in_monthly_rate := monthly_rate;
        in_months := months;
        in_savings_rate := savings_rate;
        in_savings_amount := savings_amount;
        in_regular_payment := regular_payment;
        in_one_time_payments := fst parsed;
        in_one_time_by_month := snd parsed |}.

(** The variables the month loop updates. *)
Record loop_state : Type := {
  monthly_rows : list MonthlyPaymentRow;
  balance : F;
  total_interest : F;
  total_saved : F;
  total_regular : F;
  total_one_time : F
}.

Definition initial_state (i : inputs) : loop_state :=
  {| monthly_rows := [];
     balance := in_initial_debt i;
     total_interest := zero;
     total_saved := zero;
     total_regular := zero;
     total_one_time := zero |}.

(** Step 4 of the loop body, the early payoff check: from the tentative
    regular and one-time payments, their rounded sum and the tentative new
    balance to the values the row reports. *)
Definition early_payoff (bal interest tentative_regular tentative_one_time
  tentative_total new_balance : F) : F * F * F * F :=
  if new_balance <! zero then
    let needed := f_round 2 (bal +! interest) in
    let '(tentative_regular, tentative_one_time) :=
      if zero <! tentative_one_time then
        let reduction := py_min tentative_one_time (f_abs new_balance) in
        let reduced_one_time := f_round 2 (tentative_one_time -! reduction) in
        let remaining_over := f_abs new_balance -! reduction in
        if zero <! remaining_over
        then (f_round 2 (tentative_regular -! remaining_over), reduced_one_time)
        else (tentative_regular, reduced_one_time)
      else (f_round 2 needed, tentative_one_time) in
    let tentative_total := f_round 2 (tentative_regular +! tentative_one_time) in
    (tentative_regular, tentative_one_time, tentative_total, zero)
  else (tentative_regular, tentative_one_time, tentative_total, new_balance).

(** One iteration of [for month in range(1, months + 1)], up to the
    assignment [balance = new_balance]. *)
Definition month_body (i : inputs) (st : loop_state) (month : Z) : loop_state :=
  let interest := f_round 2 (balance st *! in_monthly_rate i) in
  let one_time := default zero (in_one_time_by_month i !! month) in
  let tentative_regular := in_regular_payment i in
  let tentative_one_time := one_time in
  let tentative_total := f_round 2 (in_regular_payment i +! one_time) in
  let new_balance := f_round 2 (balance st +! interest -! tentative_total) in
  let '(tentative_regular, tentative_one_time, tentative_total, new_balance) :=
    early_payoff (balance st) interest tentative_regular tentative_one_time
      tentative_total new_balance in
  {| total_interest := f_round 2 (total_interest st +! interest);
     total_saved := f_round 2 (total_saved st +! in_savings_amount i);
     total_regular := f_round 2 (total_regular st +! tentative_regular);
     total_one_time := f_round 2 (total_one_time st +! tentative_one_time);
     monthly_rows := monthly_rows st ++
       [ {| row_month := month;
            row_salary := in_salary i;
            row_fixed_expenses := in_fixed_expenses i;
            row_savings_amount := in_savings_amount i;
            row_debt_payment := tentative_regular;
            row_one_time_payment := tentative_one_time;
            row_total_payment := tentative_total;
            row_interest_charged := interest;
            row_remaining_balance := new_balance |} ];
     balance := new_balance |}.

(** The loop: [todo] iterations are left and the next one is [month].  It
    returns the state it stopped in and the month of the early [return],
    if there was one. *)
Fixpoint month_loop (i : inputs) (todo : nat) (month : Z) (st : loop_state)
  : loop_state * option Z :=
  match todo with
  | O => (st, None)
  | S todo' =>
      let st' := month_body i st month in
      if balance st' <=! zero then (st', Some month)
      else month_loop i todo' (month + 1) st'
  end.

Definition plan_of (today : string) (i : inputs) : result FinanceDebtPlan :=
  let '(st, cleared) := month_loop i (Z.to_nat (in_months i)) 1 (initial_state i) in
  match cleared with
  | Some month =>
      new_FinanceDebtPlan
        {| plan_name := pretty (in_months i) +:+ "-Month Debt Payoff Plan";
           plan_salary := in_salary i;
           plan_fixed_expenses := in_fixed_expenses i;
           plan_initial_debt := in_initial_debt i;
           plan_monthly_interest_rate := in_monthly_rate i;
           plan_months := in_months i;
           plan_savings_rate := in_savings_rate i;
           plan_one_time_payments := in_one_time_payments i;
           plan_monthly_rows := monthly_rows st;
           plan_final_balance := zero;
           plan_total_saved := total_saved st;
           plan_total_interest_paid := total_interest st;
           plan_total_regular_payments := total_regular st;
           plan_total_one_time_payments := total_one_time st;
           plan_is_debt_cleared := true;
           plan_months_to_payoff := Some month;
           plan_recommended_payment := None;
           plan_validation_errors := [];
           plan_created_date := today;
           plan_payoff_strategy := "standard" |}
  | None =>
      let total_bonus := py_sum (map otp_amount (in_one_time_payments i)) in
      let! recommended := _calc_required_payment (in_initial_debt i) (in_monthly_rate i)
                            (in_months i) total_bonus in
      new_FinanceDebtPlan
        {| plan_name := pretty (in_months i) +:+ "-Month Debt Payoff Plan";
           plan_salary := in_salary i;
           plan_fixed_expenses := in_fixed_expenses i;
           plan_initial_debt := in_initial_debt i;
           plan_monthly_interest_rate := in_monthly_rate i;
           plan_months := in_months i;
           plan_savings_rate := in_savings_rate i;
           plan_one_time_payments := in_one_time_payments i;
           plan_monthly_rows := monthly_rows st;
           plan_final_balance := balance st;
           plan_total_saved := total_saved st;
           plan_total_interest_paid := total_interest st;
           plan_total_regular_payments := total_regular st;
           plan_total_one_time_payments := total_one_time st;
           plan_is_debt_cleared := false;
           plan_months_to_payoff := None;
           plan_recommended_payment := Some recommended;
           plan_validation_errors := [];
           plan_created_date := today;
           plan_payoff_strategy := "standard" |}
  end.

Definition _calculate_debt_payoff_plan (today : string) (params : gmap string (pyval F))
  : result FinanceDebtPlan :=
  let! i := parse_params params in
  plan_of today i.

(** ** [_validate_plan] *)

(** One iteration of the loop over [plan.one_time_payments]. *)
Definition check_bonus_month (months : Z) (errors : list string) (otp : OneTimePayment)
  : list string :=
  if (otp_month otp <? 1) || (months <? otp_month otp)
  then errors ++ ["Bonus month " +:+ pretty (otp_month otp) +:+ " outside 1-" +:+ pretty months]
  else errors.

(** One iteration of the loop over [plan.monthly_rows]; the accumulator is
    [errors] with [prev_balance]. *)
Definition check_row (acc : list string * F) (row : MonthlyPaymentRow) : list string * F :=
  let '(errors, prev_balance) := acc in
  let errors :=
    if row_remaining_balance row <! f_lit (-1) 2
    then errors ++ ["M" +:+ pretty (row_month row) +:+ ": Negative balance "
                      +:+ f_repr (row_remaining_balance row)]
    else errors in
  let expected :=
    f_round 2 (prev_balance +! row_interest_charged row -! row_total_payment row) in
  let errors :=
    if row_interest_charged row <=! row_total_payment row then
      if prev_balance +! f_lit 1 2 <! row_remaining_balance row
      then errors ++ ["M" +:+ pretty (row_month row) +:+ ": Balance increased. "
                        +:+ "Prev=" +:+ f_repr prev_balance
                        +:+ ", New=" +:+ f_repr (row_remaining_balance row)]
      else errors
    else errors in
  let errors :=
    if f_lit 2 2 <! f_abs (row_remaining_balance row -! expected)
    then errors ++ ["M" +:+ pretty (row_month row) +:+ ": Calc mismatch. "
                      +:+ "Expected=" +:+ f_repr expected
                      +:+ ", Got=" +:+ f_repr (row_remaining_balance row)]
    else errors in
  (errors, row_remaining_balance row).

Definition _validate_plan (plan : FinanceDebtPlan) (params : gmap string (pyval F))
  : list string :=
  let errors := [] in
  let salary := plan_salary plan in
  let expenses := plan_fixed_expenses plan in
  let savings := f_round 2 (salary *! plan_savings_rate plan) in
  let available := f_round 2 (salary -! expenses -! savings) in
  if available <=! zero then
    errors ++ ["No cash for debt: expenses+savings >= salary"]
  else
    let errors :=
      fold_left (check_bonus_month (plan_months plan)) (plan_one_time_payments plan) errors in
    let prev_balance := f_round 2 (plan_initial_debt plan) in
    fst (fold_left check_row (plan_monthly_rows plan) (errors, prev_balance)).

(** ** [_extract_parameters]

    The function asks the language model for a JSON object and parses the
    reply; [reply] is the parsed object, or [None] when the call or
    [json.loads] raised.  [previous_params] is what
    [_find_previous_parameters] found in the conversation. *)

(** [for key in previous_params: if key not in params or params[key] is None:
    params[key] = previous_params[key]] *)
Definition merge_previous (params previous_params : gmap string (pyval F))
  : gmap string (pyval F) :=
  merge (fun p q =>
           match p, q with
           | Some PNone, Some v => Some v
           | Some x, _ => Some x
           | None, q => q
           end) params previous_params.

(** [params.setdefault(k, v)] *)
Definition setdefault (k : string) (v : pyval F) (params : gmap string (pyval F))
  : gmap string (pyval F) :=
  match params !! k with
  | Some _ => params
  | None => <[k := v]> params
  end.

Definition required : list string :=
  ["salary"; "fixed_expenses"; "debt_amount"; "interest_rate_percent"; "months"].

(** [k in params] *)
Definition has_key (params : gmap string (pyval F)) (k : string) : bool :=
  match params !! k with
  | Some _ => true
  | None => false
  end.

Definition _extract_parameters (reply : option (gmap string (pyval F)))
  (previous_params : gmap string (pyval F)) : option (gmap string (pyval F)) :=
  match reply with
  | None => None
  | Some params =>
      let params := merge_previous params previous_params in
      let params := setdefault "savings_rate_percent" (PInt 10) params in
      let params := setdefault "currency" (PStr "EGP") params in
      let params := setdefault "one_time_payments" (PList []) params in
      if forallb (has_key params) required then Some params else None
  end.

(** ** [_store_plan] and [finance_debt_payoff_executor]

    [BaseStore] is the store's interface; the module calls only [put], which
    may raise. *)

Class BaseStore (S : Type) : Type := {
  store_put : S -> string * string * string -> string -> FinanceDebtPlan -> result S
}.

Context {S : Type} {store_impl : BaseStore S}.

(** [key] is the fresh key made from the clock and a uuid.  An exception of
    [put] is caught and printed. *)
Definition _store_plan (store : S) (plan : FinanceDebtPlan) (assistant_type user_id : string)
  (key : string) : S :=
  match store_put store ("finance_debt_plans", assistant_type, user_id) key plan with
  | Ok store' => store'
  | Raise _ => store
  end.

(** The content of the tool message the executor returns. *)
Inductive response : Type :=
  | parameter_extraction_failed (required_names : list string)
  | validation_failed (validation_errors : list string) (plan : FinanceDebtPlan)
  | success (plan : FinanceDebtPlan) (version : string) (calculated_at : string)
  | error (e : exn).

(** What the executor reads from its configuration and from the clock. *)
Record context : Type := {
  user_id : string;
  assistant_type : string;
  today : string;
  now_iso : string;
  fresh_key : string
}.

Definition finance_debt_payoff_executor (ctx : context)
  (reply : option (gmap string (pyval F))) (previous_params : gmap string (pyval F))
  (store : S) : response * S :=
  match _extract_parameters reply previous_params with
  | None =>
      (parameter_extraction_failed
         ["salary"; "fixed_expenses"; "debt_amount"; "interest_rate"; "months"], store)
  | Some params =>
      if Nat.eqb (size params) 0 then
        (parameter_extraction_failed
           ["salary"; "fixed_expenses"; "debt_amount"; "interest_rate"; "months"], store)
      else
        match _calculate_debt_payoff_plan (today ctx) params with
        | Raise e => (error e, store)
        | Ok plan =>
            match _validate_plan plan params with
            | (_ :: _) as validation_errors =>
                (validation_failed validation_errors plan, store)
            | [] =>
                let store' :=
                  _store_plan store plan (assistant_type ctx) (user_id ctx) (fresh_key ctx) in
                (success plan "2.1_audited" (now_iso ctx), store')
            end
        end
  end.

End Engine.

Arguments OneTimePayment F : clear implicits.
Arguments MonthlyPaymentRow F : clear implicits.
Arguments FinanceDebtPlan F : clear implicits.
Arguments inputs F : clear implicits.
Arguments loop_state F : clear implicits.
Arguments response F : clear implicits.
Arguments BaseStore F S : clear implicits.

(** ** Python's float: IEEE 754 binary64

    [+], [-], [*], [/], the comparisons and [abs] are the processor's, which
    Rocq's primitive floats are.  [round] is CPython's [float.__round__]: the
    decimal digits of the exact binary value, the last one rounded half to
    even, read back as the nearest double. *)

(** [a / b] rounded to the nearest integer, ties to even ([b > 0]). *)
Definition half_even_quot (a b : Z) : Z :=
  let q := a / b in
  match 2 * (a mod b) ?= b with
  | Lt => q
  | Gt => q + 1
  | Eq => if Z.even q then q else q + 1
  end.

Fixpoint pow10 (k : nat) : positive :=
  match k with
  | O => 1
  | Datatypes.S k' => 10 * pow10 k'
  end.

(** [m * 2^e * 10^nd] rounded to the nearest integer, ties to even. *)
Definition scaled_int (nd : nat) (m : positive) (e : Z) : Z :=
  let a := Z.pos (m * pow10 nd) in
  if 0 <=? e then a * 2 ^ e else half_even_quot a (2 ^ (- e)).

(** The double nearest to [n / d], with sign [s]. *)
Definition nearest_ratio (s : bool) (n d : positive) : float :=
  SF2Prim (SFdiv prec emax (S754_finite s n 0) (S754_finite false d 0)).

Definition b64_round (nd : nat) (x : float) : float :=
  match Prim2SF x with
  | S754_finite s m e =>
      match scaled_int nd m e with
      | Z.pos n => nearest_ratio s n (pow10 nd)
      | _ => if s then neg_zero else PrimFloat.zero
      end
  | _ => x
  end.

Definition b64_lit (m : Z) (k : nat) : float :=
  match m with
  | Z0 => PrimFloat.zero
  | Z.pos n => nearest_ratio false n (pow10 k)
  | Z.neg n => nearest_ratio true n (pow10 k)
  end.

(** [float(n)]: the nearest double, [OverflowError] beyond the largest. *)
Definition b64_of_int (n : Z) : result float :=
  let x := SF2Prim (binary_normalize prec emax n 0 false) in
  if is_infinity x then Raise OverflowError else Ok x.

(** [int(x)]: truncation towards zero. *)
Definition b64_to_int (x : float) : result Z :=
  match Prim2SF x with
  | S754_nan => Raise ValueError
  | S754_infinity _ => Raise OverflowError
  | S754_zero _ => Ok 0
  | S754_finite s m e =>
      let a := if 0 <=? e then Z.pos m * 2 ^ e else Z.pos m / 2 ^ (- e) in
      Ok (if s then - a else a)
  end.

(** What the interpreter takes from the platform: [float.__pow__] (the C
    library's [pow]) and the conversions between numbers and text. *)
Record platform : Type := {
  float_pow : float -> float -> result float;
  float_of_str : string -> result float;
  long_of_str : string -> result Z;
  float_repr : float -> string
}.

#[export] Instance binary64 (pf : platform) : PyFloat float := {|
  f_lit := b64_lit;
  f_of_int := b64_of_int;
  f_of_str := float_of_str pf;
  f_to_int := b64_to_int;
  int_of_str := long_of_str pf;
  f_add := PrimFloat.add;
  f_sub := PrimFloat.sub;
  f_mul := PrimFloat.mul;
  f_div := PrimFloat.div;
  f_pow := float_pow pf;
  f_round := b64_round;
  f_abs := PrimFloat.abs;
  f_eqb := PrimFloat.eqb;
  f_ltb := PrimFloat.ltb;
  f_leb := PrimFloat.leb;
  f_repr := float_repr pf
|}.

(** A platform to run examples on.  Its [pow] is correctly rounded on
    integral exponents, the only ones the module uses; its text conversions
    read and print plain decimal numerals. *)

Definition ref_pow (x y : float) : result float :=
  match b64_to_int y, Prim2SF x with
  | Ok n, S754_finite s m e =>
      if negb (y =? SF2Prim (binary_normalize prec emax n 0 false))%float
      then Raise ValueError
      else
        let a := Z.abs n in
        let sz := s && Z.odd n in
        let r :=
          if 0 <=? n
          then SF2Prim (binary_round prec emax sz (Pos.pow m (Z.to_pos a)) (e * a))
          else SF2Prim (SFdiv prec emax (S754_finite false 1 0)
                          (S754_finite sz (Pos.pow m (Z.to_pos a)) (e * a))) in
        if n =? 0 then Ok PrimFloat.one
        else if is_infinity r then Raise OverflowError else Ok r
  | _, _ => Raise ValueError
  end.

Fixpoint digits_value (s : string) (acc : Z) : option Z :=
  match s with
  | EmptyString => Some acc
  | String c rest =>
      let d := Z.of_nat (Ascii.nat_of_ascii c) - 48 in
      if (0 <=? d) && (d <=? 9) then digits_value rest (10 * acc + d) else None
  end.

Definition ref_long_of_str (s : string) : result Z :=
  match s with
  | EmptyString => Raise ValueError
  | String "-"%char (String _ _ as rest) =>
      match digits_value rest 0 with Some n => Ok (- n) | None => Raise ValueError end
  | _ => match digits_value s 0 with Some n => Ok n | None => Raise ValueError end
  end.

Definition ref_float_of_str (s : string) : result float :=
  match ref_long_of_str s with
  | Ok n => b64_of_int n
  | Raise e => Raise e
  end.

(** The shortest decimal numeral with at most 17 fraction digits that reads
    back as [x]. *)
Fixpoint shortest_digits (fuel nd : nat) (x : float) : nat * Z :=
  let n := match Prim2SF x with
           | S754_finite _ m e => scaled_int nd m e
           | _ => 0
           end in
  match fuel with
  | O => (nd, n)
  | S fuel' =>
      if (PrimFloat.abs x =? b64_lit n nd)%float then (nd, n)
      else shortest_digits fuel' (Datatypes.S nd) x
  end.

Definition pad_left (width : nat) (s : string) : string :=
  String.concat "" (repeat "0"%string (width - String.length s)) +:+ s.

Definition ref_repr (x : float) : string :=
  match Prim2SF x with
  | S754_nan => "nan"
  | S754_infinity s => if s then "-inf" else "inf"
  | S754_zero s => if s then "-0.0" else "0.0"
  | S754_finite s _ _ =>
      let '(nd, n) := shortest_digits 16 1 x in
      let unit := Z.pos (pow10 nd) in
      (if s then "-" else "") +:+ pretty (n / unit) +:+ "."
        +:+ pad_left nd (pretty (n mod unit))
  end.

Definition ref_platform : platform := {|
  float_pow := ref_pow;
  float_of_str := ref_float_of_str;
  long_of_str := ref_long_of_str;
  float_repr := ref_repr
|}.

(** ** Exact arithmetic

    The same operations on rationals, where no operation rounds except
    [round] itself.  Text conversions are not part of the arithmetic and are
    left as parameters. *)

Definition exact_round (nd : nat) (x : Qc) : Qc :=
  Q2Qc (half_even_quot (Qnum x * Z.pos (pow10 nd)) (Z.pos (Qden x)) # pow10 nd).

Definition exact_lit (m : Z) (k : nat) : Qc := Q2Qc (m # pow10 k).

Definition exact_to_int (x : Qc) : result Z := Ok (Z.quot (Qnum x) (Z.pos (Qden x))).

(** [x ** y] for an integral [y]. *)
Definition exact_pow (x y : Qc) : result Qc :=
  if negb (Z.pos (Qden y) =? 1) then Raise ValueError
  else if 0 <=? Qnum y then Ok (Qcpower x (Z.to_nat (Qnum y)))
  else if Qc_eq_bool x (Q2Qc 0) then Raise ZeroDivisionError
  else Ok (Qcinv (Qcpower x (Z.to_nat (- Qnum y)))).

Definition exact_ltb (x y : Qc) : bool := negb (Qle_bool y x).

#[export] Instance exact (of_str : string -> result Qc) (to_long : string -> result Z)
  (repr : Qc -> string) : PyFloat Qc := {|
  f_lit := exact_lit;
  f_of_int := fun n => Ok (Q2Qc (inject_Z n));
  f_of_str := of_str;
  f_to_int := exact_to_int;
  int_of_str := to_long;
  f_add := Qcplus;
  f_sub := Qcminus;
  f_mul := Qcmult;
  f_div := Qcdiv;
  f_pow := exact_pow;
  f_round := exact_round;
  f_abs := Qcabs;
  f_eqb := Qc_eq_bool;
  f_ltb := exact_ltb;
  f_leb := fun x y => Qle_bool x y;
  f_repr := repr
|}.

(** ** What the statements below speak of *)

Section Statements.
Context {F : Type} {num : PyFloat F}.
Local Open Scope py_scope.

(** [n] iterations of the loop body from [month] on, never leaving the loop:
    the simulation as it would go on without the early [return]. *)
Fixpoint free_run (i : inputs F) (n : nat) (month : Z) (st : loop_state F) : loop_state F :=
  match n with
  | O => st
  | Datatypes.S n' => free_run i n' (month + 1) (month_body i st month)
  end.

(** The row the loop body writes in [month] when it starts from the balance
    [bal]. *)
Definition month_row (i : inputs F) (bal : F) (month : Z) : MonthlyPaymentRow F :=
  let interest := f_round 2 (bal *! in_monthly_rate i) in
  let one_time := default zero (in_one_time_by_month i !! month) in
  let tentative_total := f_round 2 (in_regular_payment i +! one_time) in
  let new_balance := f_round 2 (bal +! interest -! tentative_total) in
  let '(tentative_regular, tentative_one_time, tentative_total, new_balance) :=
    early_payoff bal interest (in_regular_payment i) one_time tentative_total new_balance in
  {| row_month := month;
     row_salary := in_salary i;
     row_fixed_expenses := in_fixed_expenses i;
     row_savings_amount := in_savings_amount i;
     row_debt_payment := tentative_regular;
     row_one_time_payment := tentative_one_time;
     row_total_payment := tentative_total;
     row_interest_charged := interest;
     row_remaining_balance := new_balance |}.

(** The rows of [n] months from [month] on, each starting from the balance
    the one before left. *)
Fixpoint rows_from (i : inputs F) (n : nat) (month : Z) (bal : F)
  : list (MonthlyPaymentRow F) :=
  match n with
  | O => []
  | Datatypes.S n' =>
      let r := month_row i bal month in
      r :: rows_from i n' (month + 1) (row_remaining_balance r)
  end.

(** The state of the simulation at the end of month [k]. *)
Definition state_after (i : inputs F) (k : nat) : loop_state F :=
  free_run i k 1 (initial_state i).

(** The balance a plan's row number [k] (from 0) started from: the initial
    debt, or the remaining balance of the row before. *)
Definition balance_before (plan : FinanceDebtPlan F) (k : nat) : F :=
  match k with
  | O => plan_initial_debt plan
  | Datatypes.S j =>
      match plan_monthly_rows plan !! j with
      | Some r => row_remaining_balance r
      | None => plan_initial_debt plan
      end
  end.




(** The mapping after the three [setdefault] calls. *)
Definition with_defaults (params : gmap string (pyval F)) : gmap string (pyval F) :=
  setdefault "one_time_payments" (PList [])
    (setdefault "currency" (PStr "EGP")
       (setdefault "savings_rate_percent" (PInt 10) params)).

(** The required keys a mapping lacks. *)
Definition missing_required (params : gmap string (pyval F)) : list string :=
  List.filter (fun k => negb (has_key params k)) required.

(** What one entry of [one_time_payments] contributes: nothing when it is
    skipped, a validated payment otherwise. *)
Definition one_time_payment_of (otp : pyval F) : result (option (OneTimePayment F)) :=
  match otp with
  | PDict d =>
      match items_lookup d "month", items_lookup d "amount" with
      | Some vm, Some va =>
          let! m := py_int vm in
          let! a := py_float va in
          let! o := new_OneTimePayment m (f_round 2 a)
                      (default (PStr "One-time payment") (items_lookup d "description")) in
          Ok (Some o)
      | _, _ => Ok None
      end
  | _ => Ok None
  end.

(** The payments a list of entries contributes, in order. *)
Fixpoint payments_of (items : list (pyval F)) : result (list (OneTimePayment F)) :=
  match items with
  | [] => Ok []
  | otp :: rest =>
      let! r := one_time_payment_of otp in
      let! os := payments_of rest in
      Ok (match r with Some o => o :: os | None => os end)
  end.

(** [one_time_by_month[o.month] = o.amount] *)
Definition record_payment (acc : gmap Z F) (o : OneTimePayment F) : gmap Z F :=
  <[otp_month o := otp_amount o]> acc.




(** A store that keeps every [put] it receives, in order. *)
Definition put_log : Type := list (string * string * string * string * FinanceDebtPlan F).

#[export] Instance logging_store : BaseStore F put_log := {|
  store_put := fun log namespace key plan => Ok (log ++ [(namespace, key, plan)])
|}.

End Statements.

(** ** What the further properties speak of *)

Section MoreStatements.
Context {F : Type} {num : PyFloat F}.
Local Open Scope py_scope.

(** A total as the loop keeps it: [total = round(total + x, 2)] for the
    column [f] of every row in turn, from [0.0]. *)
Definition running_sum (f : MonthlyPaymentRow F -> F) (rows : list (MonthlyPaymentRow F)) : F :=
  fold_left (fun total row => f_round 2 (total +! f row)) rows zero.

(** What the three [setdefault] calls make of a key that neither the reply
    nor the previous parameters hold. *)
Definition default_value (k : string) : option (pyval F) :=
  if String.eqb k "savings_rate_percent" then Some (PInt 10)
  else if String.eqb k "currency" then Some (PStr "EGP")
  else if String.eqb k "one_time_payments" then Some (PList [])
  else None.

(** The keys [_calculate_debt_payoff_plan] reads. *)
Definition engine_keys : list string :=
  ["salary"; "fixed_expenses"; "debt_amount"; "interest_rate_percent"; "months";
   "savings_rate_percent"; "one_time_payments"].


(** A store whose [put] always raises. *)
Definition broken_store : Type := unit.

#[export] Instance raising_store : BaseStore F broken_store := {|
  store_put := fun _ _ _ _ => Raise OverflowError
|}.

End MoreStatements.

(** ** The conversation: messages, the executor's answer, the previous
    parameters and the router

    The graph keeps the conversation as a list of messages.  A tool message
    holds a JSON text; it is kept here as the value [json.loads] makes of
    it, and [json.loads] of a text that [json.dumps] wrote is the value
    that was written. *)

Section Conversation.
Context {F : Type} {num : PyFloat F}.
Local Open Scope py_scope.

(** LangChain's [ToolCall]: a dict with the keys [name], [args] and [id]. *)
Record ToolCall : Type := {
  tc_name : string;
  tc_args : list (string * pyval F);
  tc_id : option string
}.

(** A message, with what the module reads of it: its [type], the
    [tool_calls] of an AI message, the [content] of a human message (a
    string or a list), and for a tool message the value [json.loads] returns
    for its content ([None] when the content is empty or [json.loads]
    raises). *)
Inductive message : Type :=
  | HumanMessage (content : pyval F)
  | AIMessage (tool_calls : list ToolCall)
  | ToolMessage (data : option (pyval F))
  | SystemMessage.

(** *** [model_dump(mode="json")] and the content of the executor's answer *)

(** How pydantic writes a float field in JSON mode, [str(e)] and
    [traceback.format_exc()]: not the module's code. *)
Variable ser_float : F -> pyval F.
Variable str_exn : exn -> string.
Variable format_exc : exn -> string.

Definition dump_optional {A : Type} (f : A -> pyval F) (o : option A) : pyval F :=
  match o with
  | Some a => f a
  | None => PNone
  end.

Definition dump_OneTimePayment (o : OneTimePayment F) : pyval F :=
  PDict [("month"%string, PInt (otp_month o));
         ("amount"%string, ser_float (otp_amount o));
         ("description"%string, dump_optional PStr (otp_description o))].

Definition dump_MonthlyPaymentRow (r : MonthlyPaymentRow F) : pyval F :=
  PDict [("month"%string, PInt (row_month r));
         ("salary"%string, ser_float (row_salary r));
         ("fixed_expenses"%string, ser_float (row_fixed_expenses r));
         ("savings_amount"%string, ser_float (row_savings_amount r));
         ("debt_payment"%string, ser_float (row_debt_payment r));
         ("one_time_payment"%string, ser_float (row_one_time_payment r));
         ("total_payment"%string, ser_float (row_total_payment r));
         ("interest_charged"%string, ser_float (row_interest_charged r));
         ("remaining_balance"%string, ser_float (row_remaining_balance r))].

Definition model_dump (plan : FinanceDebtPlan F) : pyval F :=
  PDict [("plan_name"%string, PStr (plan_name plan));
         ("salary"%string, ser_float (plan_salary plan));
         ("fixed_expenses"%string, ser_float (plan_fixed_expenses plan));
         ("initial_debt"%string, ser_float (plan_initial_debt plan));
         ("monthly_interest_rate"%string, ser_float (plan_monthly_interest_rate plan));
         ("months"%string, PInt (plan_months plan));
         ("savings_rate"%string, ser_float (plan_savings_rate plan));
         ("one_time_payments"%string,
            PList (map dump_OneTimePayment (plan_one_time_payments plan)));
         ("monthly_rows"%string,
            PList (map dump_MonthlyPaymentRow (plan_monthly_rows plan)));
         ("final_balance"%string, ser_float (plan_final_balance plan));
         ("total_saved"%string, ser_float (plan_total_saved plan));
         ("total_interest_paid"%string, ser_float (plan_total_interest_paid plan));
         ("total_regular_payments"%string, ser_float (plan_total_regular_payments plan));
         ("total_one_time_payments"%string, ser_float (plan_total_one_time_payments plan));
         ("is_debt_cleared"%string, PBool (plan_is_debt_cleared plan));
         ("months_to_payoff"%string, dump_optional PInt (plan_months_to_payoff plan));
         ("recommended_payment"%string,
            dump_optional ser_float (plan_recommended_payment plan));
         ("validation_errors"%string, PList (map PStr (plan_validation_errors plan)));
         ("created_date"%string, PStr (plan_created_date plan));
         ("payoff_strategy"%string, PStr (plan_payoff_strategy plan))].

(** The object the executor hands to [json.dumps] in each of its four
    [return] statements. *)
Definition response_content (r : response F) : pyval F :=
  match r with
  | parameter_extraction_failed names =>
      PDict [("status"%string, PStr "error");
             ("error"%string, PStr "parameter_extraction_failed");
             ("required"%string, PList (map PStr names))]
  | validation_failed errors plan =>
      PDict [("status"%string, PStr "error");
             ("error"%string, PStr "validation_failed");
             ("validation_errors"%string, PList (map PStr errors));
             ("plan"%string, model_dump plan)]
  | success plan version calculated_at =>
      PDict [("status"%string, PStr "success");
             ("plan"%string, model_dump plan);
             ("metadata"%string,
                PDict [("version"%string, PStr version);
                       ("calculated_at"%string, PStr calculated_at)])]
  | error e =>
      PDict [("status"%string, PStr "error");
             ("error"%string, PStr (str_exn e));
             ("traceback"%string, PStr (format_exc e))]
  end.

(** The tool message the executor's answer becomes in the conversation. *)
Definition tool_message_of (r : response F) : message :=
  ToolMessage (Some (response_content r)).

(** *** [_find_previous_parameters] *)

(** [plan.get(k, dflt)]; an [AttributeError] when [plan] is not a dict. *)
Definition plan_get (plan : pyval F) (k : string) (dflt : pyval F) : option (pyval F) :=
  match plan with
  | PDict d => Some (default dflt (items_lookup d k))
  | _ => None
  end.

(** [round(v * 100, 2)]: a float for a float, an int for an int or a bool,
    a [TypeError] for anything else. *)
Definition times_100_rounded (v : pyval F) : option (pyval F) :=
  match v with
  | PFloat x => Some (PFloat (f_round 2 (x *! f_lit 100 0)))
  | PInt n => Some (PInt (n * 100))
  | PBool b => Some (PInt (if b then 100 else 0))
  | PNone | PStr _ | PList _ | PDict _ => None
  end.

(** The body of the first loop for the parsed content of a tool message:
    the dict it returns, or [None] when the [if] fails or the [try] block
    raises. *)
Definition tool_parameters (data : pyval F) : option (gmap string (pyval F)) :=
  match data with
  | PDict d =>
      match items_lookup d "status", items_lookup d "plan" with
      | Some (PStr status), Some plan =>
          if String.eqb status "success" then
            salary ← plan_get plan "salary" PNone;
            fixed_expenses ← plan_get plan "fixed_expenses" PNone;
            debt_amount ← plan_get plan "initial_debt" PNone;
            rate ← plan_get plan "monthly_interest_rate" (PInt 0);
            interest_rate_percent ← times_100_rounded rate;
            months ← plan_get plan "months" PNone;
            savings ← plan_get plan "savings_rate" (PInt 0);
            savings_rate_percent ← times_100_rounded savings;
            Some (<["salary" := salary]>
                  (<["fixed_expenses" := fixed_expenses]>
                  (<["debt_amount" := debt_amount]>
                  (<["interest_rate_percent" := interest_rate_percent]>
                  (<["months" := months]>
                  (<["savings_rate_percent" := savings_rate_percent]>
                  (<["currency" := PStr "EGP"]> ∅)))))))
          else None
      | _, _ => None
      end
  | _ => None
  end.

(** The body of the second loop for the content of a human message: the
    dict built from what the four regular expressions find in the lowered
    text, or [None] when the content is empty, one of them finds nothing or
    a number does not convert.  The regular expressions are not embedded. *)
Variable human_parameters : pyval F -> option (gmap string (pyval F)).

Definition from_tool_message (msg : message) : option (gmap string (pyval F)) :=
  match msg with
  | ToolMessage (Some data) => tool_parameters data
  | _ => None
  end.

Definition from_human_message (msg : message) : option (gmap string (pyval F)) :=
  match msg with
  | HumanMessage content => human_parameters content
  | _ => None
  end.

(** A [for] loop that returns at the first element for which its body
    returns. *)
Fixpoint first_return {A B : Type} (body : A -> option B) (l : list A) : option B :=
  match l with
  | [] => None
  | x :: rest =>
      match body x with
      | Some b => Some b
      | None => first_return body rest
      end
  end.

Definition _find_previous_parameters (messages : list message) : gmap string (pyval F) :=
  match first_return from_tool_message (rev messages) with
  | Some previous => previous
  | None =>
      match first_return from_human_message (rev messages) with
      | Some previous => previous
      | None => ∅
      end
  end.

(** *** The router ([nodes/router.py], [utils/intent_registry.py]) and the
    graph's edges ([graph.py]) *)

Definition INTENT_REGISTRY : list (string * list (string * string)) :=
  [("finance"%string,
    [("add_transaction"%string, "finance_add_transaction_executor"%string);
     ("update_transaction"%string, "finance_add_transaction_executor"%string);
     ("monthly_summary"%string, "finance_summary_executor"%string);
     ("set_budget"%string, "finance_budget_executor"%string);
     ("create_goal"%string, "finance_goal_executor"%string);
     ("add_recurring_payment"%string, "finance_recurring_executor"%string);
     ("advice"%string, "finance_advice_executor"%string);
     ("debt_payoff_plan"%string, "finance_debt_payoff_executor"%string);
     ("other"%string, "main_assistant"%string)]);
   ("todo"%string,
    [("add_task"%string, "todo_add_task_executor"%string);
     ("update_task"%string, "todo_update_task_executor"%string);
     ("task_summary"%string, "todo_summary_executor"%string);
     ("update_preferences"%string, "todo_preferences_executor"%string);
     ("other"%string, "main_assistant"%string)])].

(** [d.get(k)] on a dict with string keys *)
Fixpoint dict_get {A : Type} (d : list (string * A)) (k : string) : option A :=
  match d with
  | [] => None
  | (k', v) :: rest => if String.eqb k' k then Some v else dict_get rest k
  end.

(** [INTENT_REGISTRY.get(assistant_type, {}).get(intent)]: a list or a dict
    is no dict key ([TypeError]); no other value than a string equals a key
    of the registry. *)
Definition get_executor_for_intent (assistant_type : string) (intent : pyval F)
  : result (option string) :=
  match intent with
  | PStr s => Ok (dict_get (default [] (dict_get INTENT_REGISTRY assistant_type)) s)
  | PList _ | PDict _ => Raise TypeError
  | PNone | PBool _ | PInt _ | PFloat _ => Ok None
  end.

Definition is_route_intent (tc : ToolCall) : bool := String.eqb (tc_name tc) "RouteIntent".

(** The loop of [route_to_executor]: the first [RouteIntent] call of the
    most recent message that has one. *)
Definition find_route_intent_call (messages : list message) : option ToolCall :=
  first_return
    (fun msg =>
       match msg with
       | AIMessage tool_calls => find is_route_intent tool_calls
       | _ => None
       end)
    (rev messages).

Definition route_to_executor (assistant_type : string) (messages : list message)
  : result string :=
  match find_route_intent_call messages with
  | None => Ok "memory_update"%string
  | Some route_intent_call =>
      let intent :=
        default (PStr "other") (items_lookup (tc_args route_intent_call) "intent") in
      let! executor_name := get_executor_for_intent assistant_type intent in
      match executor_name with
      | Some name => if String.eqb name "" then Ok "main_assistant"%string else Ok name
      | None => Ok "main_assistant"%string
      end
  end.

(** The keys of the mapping [create_graph] gives to the router's
    conditional edges: the nodes the router may name. *)
Definition router_path_map : list string :=
  ["finance_add_transaction_executor"; "finance_summary_executor";
   "finance_budget_executor"; "finance_goal_executor"; "finance_recurring_executor";
   "finance_advice_executor"; "finance_debt_payoff_executor";
   "memory_update"; "main_assistant"]%string.

(** [should_continue] of [create_graph]: to the router, or to the end.
    [None] is the [IndexError] of [state["messages"][-1]] on an empty
    conversation. *)
Inductive next_node : Set := to_router | to_END.

Definition should_continue (messages : list message) : option next_node :=
  match last messages with
  | None => None
  | Some (AIMessage tool_calls) =>
      Some (if existsb is_route_intent tool_calls then to_router else to_END)
  | Some _ => Some to_END
  end.

(** [state["messages"][-1].tool_calls[0].get("id")], which every [return]
    of the executor evaluates; [None] when it raises (no message, no
    [tool_calls] attribute, or no tool call). *)
Definition tool_call_id (messages : list message) : option (option string) :=
  match last messages with
  | Some (AIMessage (tc :: _)) => Some (tc_id tc)
  | _ => None
  end.

End Conversation.

Arguments ToolCall F : clear implicits.
Arguments message F : clear implicits.

(** ** Concrete inputs *)

Definition make_params (salary fixed_expenses debt_amount interest_rate_percent : pyval float)
  (months : Z) (savings_rate_percent : pyval float) (one_time_payments : list (pyval float))
  : gmap string (pyval float) :=
  <["salary" := salary]>
  (<["fixed_expenses" := fixed_expenses]>
  (<["debt_amount" := debt_amount]>
  (<["interest_rate_percent" := interest_rate_percent]>
  (<["months" := PInt months]>
  (<["savings_rate_percent" := savings_rate_percent]>
  (<["currency" := PStr "EGP"]>
  (<["one_time_payments" := PList one_time_payments]> ∅))))))).

Definition one_time_entry (month : Z) (amount : Z) : pyval float :=
  PDict [("month"%string, PInt month); ("amount"%string, PInt amount)].

(** Scenario A of the specification. *)
Definition scenario_A : gmap string (pyval float) :=
  make_params (PInt 12000) (PInt 7500) (PInt 20000) (PFloat 2.5%float) 6 (PInt 10) [].

(** Scenario A with a bonus of 5000 in month 3 and one of 9000 in month 5. *)
Definition scenario_bonus : gmap string (pyval float) :=
  make_params (PInt 12000) (PInt 7500) (PInt 20000) (PFloat 2.5%float) 6 (PInt 10)
    [one_time_entry 3 5000; one_time_entry 5 9000].


(** Expenses above the salary. *)
Definition scenario_no_cash : gmap string (pyval float) :=
  make_params (PInt 5000) (PInt 7500) (PInt 20000) (PFloat 2.5%float) 6 (PInt 10) [].



(** A salary, a debt and a bonus of 1.7e308 at a monthly rate of 100%: the
    debt with its interest overflows, and so does the payment. *)
Definition scenario_overflow : gmap string (pyval float) :=
  make_params (PInt (17 * 10 ^ 307)) (PInt 1) (PInt (17 * 10 ^ 307)) (PInt 100) 1 (PInt 0)
    [one_time_entry 1 (17 * 10 ^ 307)].

(** A reply of the language model that gives the salary only. *)
Definition reply_salary_only : gmap string (pyval float) :=
  <["salary" := PInt 12000]> ∅.

Definition example_context : context := {|
  user_id := "user-1";
  assistant_type := "finance";
  today := "2026-01-15";
  now_iso := "2026-01-15T10:30:00";
  fresh_key := "plan_20260115_103000_0a1b2c3d"
|}.








(** ** Further inputs *)

(** A follow-up reply that changes the number of months only. *)
Definition reply_months_only : gmap string (pyval float) :=
  <["months" := PInt 12]> ∅.

(** Scenario A with [null] for the salary. *)
Definition scenario_null_salary : gmap string (pyval float) :=
  <["salary" := PNone]> scenario_A.

(** Scenario A in another currency. *)
Definition scenario_other_currency : gmap string (pyval float) :=
  <["currency" := PStr "USD"]> scenario_A.

(** Scenario A with a one-time payment of nothing in month 3. *)
Definition scenario_zero_bonus : gmap string (pyval float) :=
  make_params (PInt 12000) (PInt 7500) (PInt 20000) (PFloat 2.5%float) 6 (PInt 10)
    [one_time_entry 3 0].

(** Scenario A with an entry that is no object before a bonus in month 3. *)
Definition scenario_malformed_entry : gmap string (pyval float) :=
  make_params (PInt 12000) (PInt 7500) (PInt 20000) (PFloat 2.5%float) 6 (PInt 10)
    [PStr "bonus"; one_time_entry 3 5000].

(** Scenario A with a bonus in month 9 of 6. *)
Definition scenario_late_bonus : gmap string (pyval float) :=
  make_params (PInt 12000) (PInt 7500) (PInt 20000) (PFloat 2.5%float) 6 (PInt 10)
    [one_time_entry 9 5000].

(** A plan as an answer carries it: scenario A's parameters, no rows. *)
Definition answered_plan : FinanceDebtPlan float := {|
  plan_name := "6-Month Debt Payoff Plan";
  plan_salary := 12000;
  plan_fixed_expenses := 7500;
  plan_initial_debt := 20000;
  plan_monthly_interest_rate := 0.025;
  plan_months := 6;
  plan_savings_rate := 0.1;
  plan_one_time_payments :=
    [ {| otp_month := 3; otp_amount := 5000; otp_description := None |} ];
  plan_monthly_rows := [];
  plan_final_balance := 0;
  plan_total_saved := 0;
  plan_total_interest_paid := 0;
  plan_total_regular_payments := 0;
  plan_total_one_time_payments := 0;
  plan_is_debt_cleared := false;
  plan_months_to_payoff := None;
  plan_recommended_payment := None;
  plan_validation_errors := [];
  plan_created_date := "2026-01-15";
  plan_payoff_strategy := "standard"
|}%float.

Definition route_intent (intent : string) : ToolCall float := {|
  tc_name := "RouteIntent";
  tc_args := [("intent"%string, PStr intent)];
  tc_id := Some "call_1"%string
|}.

(** What follows an answer in a conversation: the assistant's reply, the
    user's next request and the next routing call. *)
Definition next_turn : list (message float) :=
  [AIMessage []; HumanMessage (PStr "and over 12 months?");
   AIMessage [route_intent "debt_payoff_plan"]].

Definition no_human_parameters : pyval float -> option (gmap string (pyval float)) :=
  fun _ => None.

Definition exception_name (e : exn) : string :=
  match e with
  | KeyError => "KeyError"
  | TypeError => "TypeError"
  | ValueError => "ValueError"
  | OverflowError => "OverflowError"
  | ZeroDivisionError => "ZeroDivisionError"
  | ValidationError => "ValidationError"
  end.

(** * Properties *)

Lemma rbind_ok {A B : Type} (r : result A) (k : A -> result B) (b : B) :
  rbind r k = Ok b -> exists a, r = Ok a /\ k a = Ok b.
Proof. destruct r as [a|e]; simpl; intros H; [eauto | discriminate]. Qed.

(** Splits a chain of [let!] that returned into its steps. *)
Ltac bind_inv H :=
  repeat
    match type of H with
    | rbind _ _ = Ok _ =>
        let x := fresh "x" in
        let Hx := fresh "Hx" in
        apply rbind_ok in H as (x & Hx & H)
    end.

(** ** The month loop, in any arithmetic *)

Section LoopFacts.
Context {F : Type} {num : PyFloat F}.
Local Open Scope py_scope.

Lemma month_body_unfold (i : inputs F) (st : loop_state F) (m : Z) :
  month_body i st m =
  let r := month_row i (balance st) m in
  {| monthly_rows := monthly_rows st ++ [r];
     balance := row_remaining_balance r;
     total_interest := f_round 2 (total_interest st +! row_interest_charged r);
     total_saved := f_round 2 (total_saved st +! in_savings_amount i);
     total_regular := f_round 2 (total_regular st +! row_debt_payment r);
     total_one_time := f_round 2 (total_one_time st +! row_one_time_payment r) |}.
Proof.
  unfold month_body, month_row.
  destruct (early_payoff _ _ _ _ _ _) as [[[a b] c] d]. reflexivity.
Qed.

Lemma month_body_rows (i : inputs F) (st : loop_state F) (m : Z) :
  monthly_rows (month_body i st m) = monthly_rows st ++ [month_row i (balance st) m].
Proof. rewrite month_body_unfold. reflexivity. Qed.

Lemma month_body_balance (i : inputs F) (st : loop_state F) (m : Z) :
  balance (month_body i st m) = row_remaining_balance (month_row i (balance st) m).
Proof. rewrite month_body_unfold. reflexivity. Qed.

Lemma month_row_month (i : inputs F) (bal : F) (m : Z) :
  row_month (month_row i bal m) = m.
Proof.
  unfold month_row. destruct (early_payoff _ _ _ _ _ _) as [[[a b] c] d]. reflexivity.
Qed.

(** A row's balance is the literal zero of the clamp, or a tentative balance
    that was not negative. *)
Lemma month_row_remaining (i : inputs F) (bal : F) (m : Z) :
  row_remaining_balance (month_row i bal m) = zero \/
  (row_remaining_balance (month_row i bal m) <! zero) = false.
Proof.
  unfold month_row, early_payoff.
  destruct (_ <! zero) eqn:E.
  - left. destruct (zero <! _); [destruct (zero <! _)|]; reflexivity.
  - right. exact E.
Qed.

Lemma free_run_rows (i : inputs F) (n : nat) :
  forall (m : Z) (st : loop_state F),
    monthly_rows (free_run i n m st) = monthly_rows st ++ rows_from i n m (balance st).
Proof.
  induction n as [|n IH]; intros m st; simpl.
  - by rewrite app_nil_r.
  - rewrite IH, month_body_rows, month_body_balance, <- app_assoc. reflexivity.
Qed.

Lemma rows_from_length (i : inputs F) (n : nat) :
  forall (m : Z) (bal : F), length (rows_from i n m bal) = n.
Proof. induction n as [|n IH]; intros m bal; simpl; [done | by rewrite IH]. Qed.

Lemma free_run_length (i : inputs F) (n : nat) (m : Z) (st : loop_state F) :
  length (monthly_rows (free_run i n m st)) = (length (monthly_rows st) + n)%nat.
Proof. by rewrite free_run_rows, length_app, rows_from_length. Qed.

Lemma free_run_S (i : inputs F) (n : nat) :
  forall (m : Z) (st : loop_state F),
    free_run i (Datatypes.S n) m st = month_body i (free_run i n m st) (m + Z.of_nat n).
Proof.
  induction n as [|n IH]; intros m st.
  - simpl. by rewrite Z.add_0_r.
  - change (free_run i (Datatypes.S (Datatypes.S n)) m st)
      with (free_run i (Datatypes.S n) (m + 1) (month_body i st m)).
    rewrite IH. simpl. f_equal. lia.
Qed.

Lemma free_run_last_row (i : inputs F) (n : nat) (m : Z) (st : loop_state F) :
  let r := month_row i (balance (free_run i n m st)) (m + Z.of_nat n) in
  last (monthly_rows (free_run i (Datatypes.S n) m st)) = Some r /\
  balance (free_run i (Datatypes.S n) m st) = row_remaining_balance r.
Proof.
  cbv zeta. rewrite free_run_S, month_body_rows, month_body_balance, last_snoc. done.
Qed.

Lemma month_loop_step (i : inputs F) (n : nat) (m : Z) (st : loop_state F) :
  month_loop i (Datatypes.S n) m st =
  if balance (month_body i st m) <=! zero
  then (month_body i st m, Some m)
  else month_loop i n (m + 1) (month_body i st m).
Proof. reflexivity. Qed.

(** The loop stops at the first month whose balance is [<= 0]. *)
Lemma month_loop_stops (i : inputs F) (k : nat) :
  forall (n : nat) (m : Z) (st : loop_state F),
    (k < n)%nat ->
    (forall j, (j < k)%nat -> (balance (free_run i (Datatypes.S j) m st) <=! zero) = false) ->
    (balance (free_run i (Datatypes.S k) m st) <=! zero) = true ->
    month_loop i n m st = (free_run i (Datatypes.S k) m st, Some (m + Z.of_nat k)).
Proof.
  induction k as [|k IH]; intros n m st Hlt Hbefore Hat.
  - destruct n as [|n]; [lia|]. rewrite month_loop_step. simpl in Hat. rewrite Hat.
    by rewrite Z.add_0_r.
  - destruct n as [|n]; [lia|]. rewrite month_loop_step.
    pose proof (Hbefore O ltac:(lia)) as H0. simpl in H0. rewrite H0.
    rewrite (IH n (m + 1) (month_body i st m)).
    + simpl. do 2 f_equal. lia.
    + lia.
    + intros j Hj. apply (Hbefore (Datatypes.S j)). lia.
    + exact Hat.
Qed.

(** It runs to the end when no month's balance is [<= 0]. *)
Lemma month_loop_runs (i : inputs F) (n : nat) :
  forall (m : Z) (st : loop_state F),
    (forall j, (j < n)%nat -> (balance (free_run i (Datatypes.S j) m st) <=! zero) = false) ->
    month_loop i n m st = (free_run i n m st, None).
Proof.
  induction n as [|n IH]; intros m st Hnone; [reflexivity|].
  rewrite month_loop_step.
  pose proof (Hnone O ltac:(lia)) as H0. simpl in H0. rewrite H0.
  rewrite IH; [reflexivity|].
  intros j Hj. apply (Hnone (Datatypes.S j)). lia.
Qed.

(** Whatever the loop returns is a free run of as many months as it made. *)
Lemma month_loop_free_run (i : inputs F) (n : nat) :
  forall (m : Z) (st st' : loop_state F) (c : option Z),
    month_loop i n m st = (st', c) ->
    exists k, (k <= n)%nat /\ st' = free_run i k m st /\
      match c with
      | Some month =>
          (1 <= k)%nat /\ month = m + Z.of_nat k - 1 /\ (balance st' <=! zero) = true
      | None => k = n
      end.
Proof.
  induction n as [|n IH]; intros m st st' c H.
  - simpl in H. injection H as <- <-. exists O.
    split; [lia|]. split; reflexivity.
  - rewrite month_loop_step in H.
    destruct (balance (month_body i st m) <=! zero) eqn:E.
    + injection H as <- <-. exists 1%nat. simpl.
      split; [lia|]. split; [reflexivity|]. split; [lia|]. split; [lia | exact E].
    + destruct (IH _ _ _ _ H) as (k & Hk & -> & Hc).
      exists (Datatypes.S k). split; [lia|]. split; [reflexivity|].
      destruct c as [month|]; simpl in *; [|lia].
      destruct Hc as (Hk1 & Hm & Hbal). split; [lia|]. split; [lia | exact Hbal].
Qed.

Lemma rows_from_lookup (i : inputs F) (n : nat) :
  forall (m : Z) (bal : F) (k : nat) (row : MonthlyPaymentRow F),
    rows_from i n m bal !! k = Some row ->
    row = month_row i
            (match k with
             | O => bal
             | Datatypes.S j =>
                 match rows_from i n m bal !! j with
                 | Some r => row_remaining_balance r
                 | None => bal
                 end
             end) (m + Z.of_nat k).
Proof.
  induction n as [|n IH]; intros m bal k row H; [discriminate|].
  destruct k as [|k].
  - simpl in H. injection H as <-. by rewrite Z.add_0_r.
  - change (rows_from i (Datatypes.S n) m bal !! Datatypes.S k)
      with (rows_from i n (m + 1) (row_remaining_balance (month_row i bal m)) !! k) in H.
    pose proof (IH _ _ _ _ H) as IHk. rewrite IHk.
    replace (m + 1 + Z.of_nat k) with (m + Z.of_nat (Datatypes.S k)) by lia.
    f_equal. destruct k as [|j]; [reflexivity|].
    change (rows_from i (Datatypes.S n) m bal !! Datatypes.S j)
      with (rows_from i n (m + 1) (row_remaining_balance (month_row i bal m)) !! j).
    destruct (rows_from i n (m + 1) _ !! j) as [r|] eqn:Ej; [reflexivity|].
    apply lookup_ge_None in Ej. apply lookup_lt_Some in H. lia.
Qed.

End LoopFacts.

(** ** Plans and parsed parameters, in any arithmetic *)

Section PlanFacts.
Context {F : Type} {num : PyFloat F}.
Local Open Scope py_scope.

Lemma new_FinanceDebtPlan_inv (p plan : FinanceDebtPlan F) :
  new_FinanceDebtPlan p = Ok plan ->
  plan = p /\
  plan_constraints (plan_salary p) (plan_fixed_expenses p) (plan_initial_debt p)
    (plan_monthly_interest_rate p) (plan_months p) (plan_savings_rate p) = true.
Proof.
  unfold new_FinanceDebtPlan. destruct (plan_constraints _ _ _ _ _ _); [|discriminate].
  intros H. injection H as <-. by split.
Qed.

(** What a returned plan is made of. *)
Lemma plan_of_inv (today : string) (i : inputs F) (plan : FinanceDebtPlan F) :
  plan_of today i = Ok plan ->
  exists (st : loop_state F) (c : option Z),
    month_loop i (Z.to_nat (in_months i)) 1 (initial_state i) = (st, c) /\
    plan_constraints (in_salary i) (in_fixed_expenses i) (in_initial_debt i)
      (in_monthly_rate i) (in_months i) (in_savings_rate i) = true /\
    plan_monthly_rows plan = monthly_rows st /\
    plan_initial_debt plan = in_initial_debt i /\
    plan_monthly_interest_rate plan = in_monthly_rate i /\
    plan_months plan = in_months i /\
    plan_total_interest_paid plan = total_interest st /\
    plan_total_regular_payments plan = total_regular st /\
    plan_total_one_time_payments plan = total_one_time st /\
    plan_one_time_payments plan = in_one_time_payments i /\
    plan_months_to_payoff plan = c /\
    match c with
    | Some _ =>
        plan_is_debt_cleared plan = true /\ plan_final_balance plan = zero /\
        plan_recommended_payment plan = None
    | None =>
        plan_is_debt_cleared plan = false /\ plan_final_balance plan = balance st /\
        exists r,
          _calc_required_payment (in_initial_debt i) (in_monthly_rate i) (in_months i)
            (py_sum (map otp_amount (in_one_time_payments i))) = Ok r /\
          plan_recommended_payment plan = Some r
    end.
Proof.
  unfold plan_of. destruct (month_loop _ _ _ _) as [st c]. intros H.
  exists st, c. split; [reflexivity|].
  destruct c as [month|].
  - apply new_FinanceDebtPlan_inv in H as [-> Hvalid]. simpl in *. repeat split. exact Hvalid.
  - apply rbind_ok in H as (r & Hr & H).
    apply new_FinanceDebtPlan_inv in H as [-> Hvalid]. simpl in *.
    repeat split; [exact Hvalid|]. exists r. by split.
Qed.

Lemma plan_rows_from (today : string) (i : inputs F) (plan : FinanceDebtPlan F) :
  plan_of today i = Ok plan ->
  plan_monthly_rows plan =
    rows_from i (length (plan_monthly_rows plan)) 1 (in_initial_debt i).
Proof.
  intros H. apply plan_of_inv in H as (st & c & Hloop & _ & Hrows & _).
  apply month_loop_free_run in Hloop as (k & _ & -> & _).
  rewrite Hrows, free_run_rows. simpl. by rewrite rows_from_length.
Qed.

(** Every row of a plan is the row of its month, from the balance the row
    before left. *)
Lemma plan_row_spec (today : string) (i : inputs F) (plan : FinanceDebtPlan F)
  (k : nat) (row : MonthlyPaymentRow F) :
  plan_of today i = Ok plan ->
  plan_monthly_rows plan !! k = Some row ->
  row = month_row i (balance_before plan k) (Z.of_nat k + 1).
Proof.
  intros Hplan Hk.
  pose proof (plan_rows_from _ _ _ Hplan) as Hrows.
  pose proof (plan_of_inv _ _ _ Hplan) as (_ & _ & _ & _ & _ & Hdebt & _).
  rewrite Hrows in Hk. apply rows_from_lookup in Hk.
  rewrite Hk. unfold balance_before. rewrite Hdebt, <- Hrows. f_equal. lia.
Qed.

Lemma new_OneTimePayment_inv (m : Z) (amt : F) (desc : pyval F) (o : OneTimePayment F) :
  new_OneTimePayment m amt desc = Ok o ->
  otp_month o = m /\ otp_amount o = amt /\ 0 < m /\ (zero <! amt) = true.
Proof.
  unfold new_OneTimePayment.
  destruct (0 <? m) eqn:Hm; simpl; [|discriminate].
  destruct (zero <! amt) eqn:Ha; simpl; [|discriminate].
  apply Z.ltb_lt in Hm.
  destruct desc; try discriminate; intros H; injection H as <-; simpl; auto.
Qed.


(** The loop over the entries, entry by entry. *)
Lemma parse_one_time_payments_cons (otp : pyval F) (rest : list (pyval F))
  (l : list (OneTimePayment F)) (mp : gmap Z F) :
  parse_one_time_payments (otp :: rest) l mp =
  let! r := one_time_payment_of otp in
  match r with
  | Some o => parse_one_time_payments rest (l ++ [o]) (record_payment mp o)
  | None => parse_one_time_payments rest l mp
  end.
Proof.
  destruct otp as [| | | | | |d]; try reflexivity. simpl.
  destruct (items_lookup d "month") as [vm|]; [|reflexivity].
  destruct (items_lookup d "amount") as [va|]; [|reflexivity].
  destruct (py_int vm) as [m|e]; [|reflexivity]. simpl.
  destruct (py_float va) as [a|e]; [|reflexivity]. simpl.
  destruct (new_OneTimePayment _ _ _) as [o|e] eqn:E; [|reflexivity]. simpl.
  apply new_OneTimePayment_inv in E as (<- & <- & _). reflexivity.
Qed.

Lemma parse_as_payments (items : list (pyval F)) :
  forall (l : list (OneTimePayment F)) (mp : gmap Z F),
    parse_one_time_payments items l mp =
    let! new := payments_of items in
    Ok (l ++ new, fold_left record_payment new mp).
Proof.
  induction items as [|otp rest IH]; intros l mp.
  - simpl. by rewrite app_nil_r.
  - rewrite parse_one_time_payments_cons. simpl payments_of.
    destruct (one_time_payment_of otp) as [[o|]|e]; simpl; [| |reflexivity].
    + rewrite IH. destruct (payments_of rest) as [os|e]; simpl; [|reflexivity].
      by rewrite <- app_assoc.
    + rewrite IH. by destruct (payments_of rest).
Qed.

Lemma payments_of_app (a b : list (pyval F)) :
  payments_of (a ++ b) =
  let! x := payments_of a in
  let! y := payments_of b in
  Ok (x ++ y).
Proof.
  induction a as [|otp a IH]; simpl.
  - by destruct (payments_of b).
  - destruct (one_time_payment_of otp) as [r|e]; simpl; [|reflexivity].
    rewrite IH. destruct (payments_of a) as [x|e]; simpl; [|reflexivity].
    destruct (payments_of b) as [y|e]; simpl; [|reflexivity].
    by destruct r.
Qed.


End PlanFacts.

Section ParseFacts.
Context {F : Type} {num : PyFloat F}.
Local Open Scope py_scope.



Lemma parse_params_nonempty (params : gmap string (pyval F)) (i : inputs F) :
  parse_params params = Ok i -> Nat.eqb (size params) 0 = false.
Proof.
  unfold parse_params. intros H. apply rbind_ok in H as (v & Hv & _).
  unfold getitem in Hv. destruct (params !! "salary") as [w|] eqn:E; [|discriminate].
  apply Nat.eqb_neq. intros Hsize. apply map_size_empty_inv in Hsize. subst params.
  by rewrite lookup_empty in E.
Qed.












End ParseFacts.

(** ** The engine, the validator and the executor, in any arithmetic *)

Section EngineTheorems.
Context {F : Type} {num : PyFloat F}.
Context {S : Type} {store_impl : BaseStore F S}.
Local Open Scope py_scope.


(** C7.  When [round(salary - fixed_expenses - round(salary * savings_rate,
    2), 2) <= 0] for a plan, [_validate_plan] returns the one-element list
    ["No cash for debt: expenses+savings >= salary"], whatever the plan's
    one-time payments and rows are: no later check adds to it. *)
Theorem no_cash_stops_validation (plan : FinanceDebtPlan F) (params : gmap string (pyval F)) :
  (f_round 2 (plan_salary plan -! plan_fixed_expenses plan
              -! f_round 2 (plan_salary plan *! plan_savings_rate plan)) <=! zero) = true ->
  _validate_plan plan params = ["No cash for debt: expenses+savings >= salary"].
Proof. intros H. unfold _validate_plan. rewrite H. reflexivity. Qed.

Lemma missing_required_nil (params : gmap string (pyval F)) :
  forallb (has_key params) required = true <-> missing_required params = [].
Proof.
  unfold missing_required. generalize required as ks.
  induction ks as [|k ks IH]; simpl; [done|].
  destruct (has_key params k); simpl; [exact IH|]. split; discriminate.
Qed.

Lemma extract_parameters_unfold (reply previous : gmap string (pyval F)) :
  _extract_parameters (Some reply) previous =
  let params := with_defaults (merge_previous reply previous) in
  if forallb (has_key params) required then Some params else None.
Proof. reflexivity. Qed.

(** C8, as amended.  When the mapping, after the merge with the previous
    parameters and the three defaults, lacks at least one required key,
    [_extract_parameters] returns [None], and the executor answers
    [parameter_extraction_failed] with the fixed list [salary],
    [fixed_expenses], [debt_amount], [interest_rate], [months] (all five
    names, whichever keys are missing) and leaves the store as it was. *)
Theorem missing_required_key_fails (ctx : context) (reply previous : gmap string (pyval F))
  (store : S) :
  missing_required (with_defaults (merge_previous reply previous)) <> [] ->
  _extract_parameters (Some reply) previous = None /\
  finance_debt_payoff_executor ctx (Some reply) previous store =
    (parameter_extraction_failed
       ["salary"; "fixed_expenses"; "debt_amount"; "interest_rate"; "months"], store).
Proof.
  intros Hmiss.
  assert (H : _extract_parameters (Some reply) previous = None).
  { rewrite extract_parameters_unfold. cbv zeta.
    destruct (forallb _ required) eqn:E; [|reflexivity].
    apply missing_required_nil in E. contradiction. }
  split; [exact H|]. unfold finance_debt_payoff_executor. rewrite H. reflexivity.
Qed.

(** C9.  When the parameters were extracted, the plan was computed and
    [_validate_plan] returns a non-empty list, the executor answers
    [validation_failed] with that list and the plan, and the store it
    returns is the store it was given: [put] was not called. *)
Theorem invalid_plan_not_stored (ctx : context) (reply : option (gmap string (pyval F)))
  (previous params : gmap string (pyval F)) (store : S) (plan : FinanceDebtPlan F) :
  _extract_parameters reply previous = Some params ->
  _calculate_debt_payoff_plan (today ctx) params = Ok plan ->
  _validate_plan plan params <> [] ->
  finance_debt_payoff_executor ctx reply previous store =
    (validation_failed (_validate_plan plan params) plan, store).
Proof.
  intros Hextract Hplan Hinvalid. unfold finance_debt_payoff_executor.
  rewrite Hextract.
  assert (Hsize : Nat.eqb (size params) 0 = false).
  { unfold _calculate_debt_payoff_plan in Hplan. apply rbind_ok in Hplan as (i & Hi & _).
    by apply parse_params_nonempty in Hi. }
  rewrite Hsize, Hplan.
  destruct (_validate_plan plan params) as [|msg msgs]; [contradiction | reflexivity].
Qed.

(** The store changes only when a plan without violations was computed. *)
Lemma store_changes_only_on_success (ctx : context)
  (reply : option (gmap string (pyval F))) (previous : gmap string (pyval F)) (store : S) :
  snd (finance_debt_payoff_executor ctx reply previous store) = store \/
  exists params plan,
    _extract_parameters reply previous = Some params /\
    _calculate_debt_payoff_plan (today ctx) params = Ok plan /\
    _validate_plan plan params = [] /\
    finance_debt_payoff_executor ctx reply previous store =
      (success plan "2.1_audited" (now_iso ctx),
       _store_plan store plan (assistant_type ctx) (user_id ctx) (fresh_key ctx)).
Proof.
  unfold finance_debt_payoff_executor.
  destruct (_extract_parameters reply previous) as [params|] eqn:Ep; [|by left].
  destruct (Nat.eqb (size params) 0); [by left|].
  destruct (_calculate_debt_payoff_plan (today ctx) params) as [plan|e] eqn:Ec; [|by left].
  destruct (_validate_plan plan params) as [|msg msgs] eqn:Ev; [|by left].
  right. exists params, plan. rewrite Ev. auto.
Qed.

End EngineTheorems.

Section SameMonth.
Context {F : Type} {num : PyFloat F}.
Local Open Scope py_scope.


End SameMonth.

(** ** binary64: comparisons and signs *)

Lemma Prim2SF_zero : Prim2SF 0%float = S754_zero false.
Proof. reflexivity. Qed.

Lemma b64_not_lt_zero (x : float) :
  (x <? 0)%float = false -> is_nan x = true \/ (0 <=? x)%float = true.
Proof.
  unfold is_nan.
  rewrite FloatAxioms.ltb_spec, FloatAxioms.leb_spec, FloatAxioms.eqb_spec, Prim2SF_zero.
  destruct (Prim2SF x) as [s|s| |s m e]; try destruct s; cbn; auto; discriminate.
Qed.

Lemma b64_le_not_lt_zero (x : float) :
  (x <=? 0)%float = true -> (x <? 0)%float = false -> (x =? 0)%float = true.
Proof.
  rewrite FloatAxioms.ltb_spec, FloatAxioms.leb_spec, FloatAxioms.eqb_spec, Prim2SF_zero.
  destruct (Prim2SF x) as [s|s| |s m e]; try destruct s; cbn; auto; discriminate.
Qed.

















(** ** The engine on binary64, on any platform *)

Section Binary64.
Variable pf : platform.
#[local] Hint Extern 0 (PyFloat float) => exact (binary64 pf) : typeclass_instances.
Local Open Scope py_scope.

(** C2.  Let the parameters parse and satisfy the schema's constraints.
    (1) If the simulated balance is [<= 0] at the end of month [k], with
    [1 <= k <= months], and at the end of no earlier month, the engine
    returns a plan with [is_debt_cleared = true], [months_to_payoff = k] and
    exactly [k] rows, the last of which is the row of month [k] and has a
    remaining balance equal to [0.0].  (2) If the balance is [<= 0] at the
    end of no month up to [months], the engine returns what the solver
    returns: when the solver returns [r], a plan with
    [is_debt_cleared = false], [months_to_payoff] unset, exactly [months]
    rows and [recommended_payment = r]; when the solver raises, the engine
    raises with it. *)
Theorem payoff_termination (today : string) (params : gmap string (pyval float))
  (i : inputs float) :
  parse_params params = Ok i ->
  plan_constraints (in_salary i) (in_fixed_expenses i) (in_initial_debt i)
    (in_monthly_rate i) (in_months i) (in_savings_rate i) = true ->
  (forall k : nat,
      (1 <= k <= Z.to_nat (in_months i))%nat ->
      (balance (state_after i k) <=? 0)%float = true ->
      (forall j : nat, (1 <= j < k)%nat ->
         (balance (state_after i j) <=? 0)%float = false) ->
      exists plan row,
        _calculate_debt_payoff_plan today params = Ok plan /\
        plan_is_debt_cleared plan = true /\
        plan_months_to_payoff plan = Some (Z.of_nat k) /\
        length (plan_monthly_rows plan) = k /\
        last (plan_monthly_rows plan) = Some row /\
        row_month row = Z.of_nat k /\
        (row_remaining_balance row =? 0)%float = true)
  /\
  ((forall k : nat, (1 <= k <= Z.to_nat (in_months i))%nat ->
      (balance (state_after i k) <=? 0)%float = false) ->
   match _calc_required_payment (in_initial_debt i) (in_monthly_rate i) (in_months i)
           (py_sum (map otp_amount (in_one_time_payments i)))
   with
   | Ok r =>
       exists plan,
         _calculate_debt_payoff_plan today params = Ok plan /\
         plan_is_debt_cleared plan = false /\
         plan_months_to_payoff plan = None /\
         Z.of_nat (length (plan_monthly_rows plan)) = in_months i /\
         plan_recommended_payment plan = Some r
   | Raise e => _calculate_debt_payoff_plan today params = Raise e
   end).
Proof.
  intros Hparse Hvalid.
  assert (Hmonths : 0 < in_months i).
  { unfold plan_constraints in Hvalid. rewrite !andb_true_iff in Hvalid.
    destruct Hvalid as [[[_ Hm] _] _]. by apply Z.ltb_lt in Hm. }
  unfold _calculate_debt_payoff_plan. rewrite Hparse. simpl rbind.
  split.
  - intros k Hk Hat Hbefore.
    destruct k as [|k]; [lia|].
    assert (Hloop : month_loop i (Z.to_nat (in_months i)) 1 (initial_state i)
                    = (state_after i (Datatypes.S k), Some (1 + Z.of_nat k))).
    { apply month_loop_stops; [lia | | exact Hat].
      intros j Hj. apply (Hbefore (Datatypes.S j)). lia. }
    destruct (free_run_last_row i k 1 (initial_state i)) as [Hlast Hbal].
    unfold plan_of. rewrite Hloop. unfold new_FinanceDebtPlan. simpl. rewrite Hvalid.
    eexists _, _. split; [reflexivity|]. simpl.
    split; [reflexivity|]. split; [f_equal; lia|].
    split; [unfold state_after; by rewrite free_run_length|].
    split; [exact Hlast|]. split; [rewrite month_row_month; lia|].
    unfold state_after in Hat. rewrite Hbal in Hat.
    destruct (month_row_remaining i (balance (free_run i k 1 (initial_state i)))
                (1 + Z.of_nat k)) as [H|H].
    + rewrite H. reflexivity.
    + by apply b64_le_not_lt_zero.
  - intros Hnone.
    assert (Hloop : month_loop i (Z.to_nat (in_months i)) 1 (initial_state i)
                    = (state_after i (Z.to_nat (in_months i)), None)).
    { apply month_loop_runs. intros j Hj. apply (Hnone (Datatypes.S j)). lia. }
    unfold plan_of. rewrite Hloop.
    destruct (_calc_required_payment _ _ _ _) as [r|e]; [|reflexivity].
    unfold new_FinanceDebtPlan. simpl. rewrite Hvalid.
    eexists. split; [reflexivity|]. simpl.
    split; [reflexivity|]. split; [reflexivity|]. split; [|reflexivity].
    unfold state_after. rewrite free_run_length. simpl. lia.
Qed.

(** C3.  For scenario A (salary 12000, fixed expenses 7500, debt 20000,
    monthly rate 2.5%, 6 months, savings rate 10%, no one-time payments),
    the first row of the plan the engine returns is the row of month 1 with
    interest charged 500.00, savings amount 1200.00, regular debt payment
    3300.00, no one-time payment, total payment 3300.00 and remaining
    balance 17200.00. *)
Theorem scenario_A_first_row (today : string) (plan : FinanceDebtPlan float) :
  _calculate_debt_payoff_plan today scenario_A = Ok plan ->
  exists row,
    head (plan_monthly_rows plan) = Some row /\
    row_month row = 1 /\
    row_interest_charged row = 500%float /\
    row_savings_amount row = 1200%float /\
    row_debt_payment row = 3300%float /\
    row_one_time_payment row = 0%float /\
    row_total_payment row = 3300%float /\
    row_remaining_balance row = 17200%float.
Proof.
  intros Hplan. unfold _calculate_debt_payoff_plan in Hplan.
  apply rbind_ok in Hplan as (i & Hi & Hplan).
  vm_compute in Hi. injection Hi as <-.
  pose proof (plan_rows_from _ _ _ Hplan) as Hrows.
  pose proof (plan_of_inv _ _ _ Hplan) as (st & c & Hloop & _ & Hst & _).
  apply month_loop_free_run in Hloop as (k & _ & -> & Hc).
  assert (Hk : (1 <= k)%nat).
  { destruct c as [month|]; [by destruct Hc | subst k; vm_compute; lia]. }
  assert (Hlen : length (plan_monthly_rows plan) = k).
  { rewrite Hst. by rewrite free_run_length. }
  rewrite Hlen in Hrows. destruct k as [|k]; [lia|].
  rewrite Hrows. eexists. split; [reflexivity|].
  vm_compute. repeat split.
Qed.

(** C4, as amended.  No row of a returned plan has a remaining balance
    below zero, by however little: the comparison [remaining_balance < 0] is
    false for every row.  The balance is then [>= 0] unless it is a NaN,
    which compares with nothing. *)
Theorem remaining_balance_never_negative (today : string)
  (params : gmap string (pyval float)) (plan : FinanceDebtPlan float)
  (row : MonthlyPaymentRow float) :
  _calculate_debt_payoff_plan today params = Ok plan ->
  In row (plan_monthly_rows plan) ->
  (row_remaining_balance row <? 0)%float = false /\
  (is_nan (row_remaining_balance row) = true \/
   (0 <=? row_remaining_balance row)%float = true).
Proof.
  intros Hplan Hin. unfold _calculate_debt_payoff_plan in Hplan.
  apply rbind_ok in Hplan as (i & Hi & Hplan).
  apply list_elem_of_In, list_elem_of_lookup in Hin as [k Hk].
  rewrite (plan_row_spec _ _ _ _ _ Hplan Hk).
  assert (H : (row_remaining_balance
                 (month_row i (balance_before plan k) (Z.of_nat k + 1)) <? 0)%float = false).
  { destruct (month_row_remaining i (balance_before plan k) (Z.of_nat k + 1)) as [H|H].
    - rewrite H. reflexivity.
    - exact H. }
  split; [exact H | by apply b64_not_lt_zero].
Qed.


End Binary64.

(** ** Exact arithmetic: amounts of whole cents *)














Section ExactArithmetic.
Variable of_str : string -> result Qc.
Variable to_long : string -> result Z.
Variable repr : Qc -> string.
#[local] Hint Extern 0 (PyFloat Qc) => exact (exact of_str to_long repr) : typeclass_instances.
Local Open Scope py_scope.





End ExactArithmetic.

(** * Further properties of the code

    What the module does beyond the statements of its specification: the
    executor and the store, extraction, the engine's plans, the validator,
    the previous parameters of a conversation, and the router. *)

Section MoreEngine.
Context {F : Type} {num : PyFloat F}.
Context {S : Type} {store_impl : BaseStore F S}.
Local Open Scope py_scope.

Lemma setdefault_lookup_ne (k k' : string) (v : pyval F) (p : gmap string (pyval F)) :
  k <> k' -> setdefault k v p !! k' = p !! k'.
Proof.
  intros Hne. unfold setdefault. destruct (p !! k); [reflexivity|].
  by rewrite lookup_insert_ne.
Qed.

Lemma setdefault_lookup (k : string) (v : pyval F) (p : gmap string (pyval F)) :
  setdefault k v p !! k = Some (default v (p !! k)).
Proof.
  unfold setdefault. destruct (p !! k) eqn:E; simpl; [exact E|].
  by rewrite lookup_insert_eq.
Qed.

Lemma merge_previous_lookup (p q : gmap string (pyval F)) (k : string) :
  merge_previous p q !! k =
  match p !! k, q !! k with
  | Some PNone, Some w => Some w
  | Some v, _ => Some v
  | None, w => w
  end.
Proof.
  unfold merge_previous. rewrite lookup_merge.
  destruct (p !! k) as [[]|], (q !! k); reflexivity.
Qed.

Lemma with_defaults_lookup (p : gmap string (pyval F)) (k : string) :
  with_defaults p !! k =
  match p !! k with
  | Some v => Some v
  | None => default_value k
  end.
Proof.
  unfold with_defaults, default_value.
  destruct (String.eqb_spec k "savings_rate_percent") as [->|H1].
  { rewrite !setdefault_lookup_ne by discriminate. rewrite setdefault_lookup.
    by destruct (p !! "savings_rate_percent"). }
  destruct (String.eqb_spec k "currency") as [->|H2].
  { rewrite setdefault_lookup_ne by discriminate. rewrite setdefault_lookup.
    rewrite setdefault_lookup_ne by discriminate. by destruct (p !! "currency"). }
  destruct (String.eqb_spec k "one_time_payments") as [->|H3].
  { rewrite setdefault_lookup. rewrite !setdefault_lookup_ne by discriminate.
    by destruct (p !! "one_time_payments"). }
  rewrite !setdefault_lookup_ne by congruence. by destruct (p !! k).
Qed.

Lemma extract_parameters_nonempty (reply : option (gmap string (pyval F)))
  (previous params : gmap string (pyval F)) :
  _extract_parameters reply previous = Some params -> Nat.eqb (size params) 0 = false.
Proof.
  destruct reply as [reply|]; [|discriminate]. rewrite extract_parameters_unfold. cbv zeta.
  destruct (forallb _ required) eqn:E; [|discriminate]. intros [= <-].
  simpl in E. apply andb_prop in E as [E _]. unfold has_key in E.
  destruct (with_defaults (merge_previous reply previous) !! "salary") as [v|] eqn:Ev;
    [|discriminate].
  apply Nat.eqb_neq. intros Hsize. apply map_size_empty_iff in Hsize.
  rewrite Hsize in Ev. by rewrite lookup_empty in Ev.
Qed.

(** When [store.put] raises, [_store_plan] catches the exception: the
    executor still answers [success] with the plan, and nothing was stored. *)
Theorem failed_put_is_swallowed (ctx : context) (reply : option (gmap string (pyval F)))
  (previous params : gmap string (pyval F)) (store : S) (plan : FinanceDebtPlan F) (e : exn) :
  _extract_parameters reply previous = Some params ->
  _calculate_debt_payoff_plan (today ctx) params = Ok plan ->
  _validate_plan plan params = [] ->
  store_put store ("finance_debt_plans"%string, assistant_type ctx, user_id ctx)
    (fresh_key ctx) plan = Raise e ->
  finance_debt_payoff_executor ctx reply previous store =
    (success plan "2.1_audited" (now_iso ctx), store).
Proof.
  intros Hextract Hplan Hvalid Hput. unfold finance_debt_payoff_executor.
  rewrite Hextract, (extract_parameters_nonempty _ _ _ Hextract), Hplan, Hvalid.
  unfold _store_plan. by rewrite Hput.
Qed.


(** The value extraction returns under a key: the reply's value unless it
    is absent or [None]; then the previous parameters' value, if they have
    the key; then the reply's [None], if the reply has the key; then the
    default of the key, if it has one. *)
Theorem extracted_value (reply previous params : gmap string (pyval F)) (k : string) :
  _extract_parameters (Some reply) previous = Some params ->
  params !! k =
  match reply !! k, previous !! k with
  | Some PNone, Some w => Some w
  | Some v, _ => Some v
  | None, Some w => Some w
  | None, None => default_value k
  end.
Proof.
  rewrite extract_parameters_unfold. cbv zeta.
  destruct (forallb _ required); [|discriminate]. intros [= <-].
  rewrite with_defaults_lookup, merge_previous_lookup.
  destruct (reply !! k) as [[]|], (previous !! k); reflexivity.
Qed.

Lemma parse_params_null (params : gmap string (pyval F)) (k : string) :
  In k required -> params !! k = Some PNone -> exists e, parse_params params = Raise e.
Proof.
  intros Hk Hnull. unfold parse_params, getitem.
  simpl in Hk. destruct Hk as [<-|[<-|[<-|[<-|[<-|[]]]]]]; rewrite Hnull;
    repeat first
      [ by eexists
      | progress cbn [rbind py_float py_int]
      | match goal with
        | |- exists e, rbind ?r _ = Raise e => destruct r
        end ].
Qed.

Lemma nat_pos_succ (k : nat) : (1 <= k)%nat -> exists k', k = Datatypes.S k'.
Proof. destruct k; [lia | eauto]. Qed.

(** A required key whose value is [None] passes extraction (the key is
    there), and the engine then raises on it: the executor answers with the
    exception, not with [parameter_extraction_failed], and stores nothing. *)
Theorem null_required_value_is_an_engine_error (ctx : context)
  (reply : option (gmap string (pyval F))) (previous params : gmap string (pyval F))
  (store : S) (k : string) :
  _extract_parameters reply previous = Some params ->
  In k required ->
  params !! k = Some PNone ->
  exists e,
    _calculate_debt_payoff_plan (today ctx) params = Raise e /\
    finance_debt_payoff_executor ctx reply previous store = (error e, store).
Proof.
  intros Hextract Hk Hnull. destruct (parse_params_null _ _ Hk Hnull) as [e He].
  assert (Hcalc : _calculate_debt_payoff_plan (today ctx) params = Raise e).
  { unfold _calculate_debt_payoff_plan. by rewrite He. }
  exists e. split; [exact Hcalc|]. unfold finance_debt_payoff_executor.
  by rewrite Hextract, (extract_parameters_nonempty _ _ _ Hextract), Hcalc.
Qed.


(** *** What a returned plan is made of *)

Lemma month_row_echo (i : inputs F) (bal : F) (m : Z) :
  row_salary (month_row i bal m) = in_salary i /\
  row_fixed_expenses (month_row i bal m) = in_fixed_expenses i /\
  row_savings_amount (month_row i bal m) = in_savings_amount i.
Proof.
  unfold month_row. destruct (early_payoff _ _ _ _ _ _) as [[[a b] c] d]. by repeat split.
Qed.

Lemma month_row_total (i : inputs F) (bal : F) (m : Z) :
  row_total_payment (month_row i bal m) =
  f_round 2 (row_debt_payment (month_row i bal m) +! row_one_time_payment (month_row i bal m)).
Proof.
  unfold month_row, early_payoff.
  destruct (_ <! zero); [|reflexivity].
  destruct (zero <! _); [destruct (zero <! _)|]; reflexivity.
Qed.

Lemma month_row_interest (i : inputs F) (bal : F) (m : Z) :
  row_interest_charged (month_row i bal m) = f_round 2 (bal *! in_monthly_rate i).
Proof.
  unfold month_row. destruct (early_payoff _ _ _ _ _ _) as [[[a b] c] d]. reflexivity.
Qed.

Lemma parse_params_derived (params : gmap string (pyval F)) (i : inputs F) :
  parse_params params = Ok i ->
  in_savings_amount i = f_round 2 (in_salary i *! in_savings_rate i) /\
  in_regular_payment i
  = f_round 2 (in_salary i -! in_fixed_expenses i -! in_savings_amount i).
Proof.
  unfold parse_params. intros H. bind_inv H. injection H as <-. simpl. by split.
Qed.

Lemma plan_of_fields (today : string) (i : inputs F) (plan : FinanceDebtPlan F) :
  plan_of today i = Ok plan ->
  exists (st : loop_state F) (c : option Z),
    month_loop i (Z.to_nat (in_months i)) 1 (initial_state i) = (st, c) /\
    plan_name plan = pretty (in_months i) +:+ "-Month Debt Payoff Plan" /\
    plan_salary plan = in_salary i /\
    plan_fixed_expenses plan = in_fixed_expenses i /\
    plan_savings_rate plan = in_savings_rate i /\
    plan_total_saved plan = total_saved st /\
    plan_validation_errors plan = [] /\
    plan_created_date plan = today /\
    plan_payoff_strategy plan = "standard"%string.
Proof.
  unfold plan_of. destruct (month_loop _ _ _ _) as [st c]. intros H.
  exists st, c. split; [reflexivity|].
  destruct c as [month|].
  - apply new_FinanceDebtPlan_inv in H as [-> _]. simpl. by repeat split.
  - apply rbind_ok in H as (r & _ & H).
    apply new_FinanceDebtPlan_inv in H as [-> _]. simpl. by repeat split.
Qed.

(** A plan is returned only when the schema's constraints hold of the
    parsed and rounded parameters, which the plan echoes: salary, fixed
    expenses and debt above zero, the monthly rate and the savings rate
    between 0 and 1, and at least one month.  On any other input the engine
    raises. *)
Theorem returned_plan_meets_schema (today : string) (params : gmap string (pyval F))
  (plan : FinanceDebtPlan F) :
  _calculate_debt_payoff_plan today params = Ok plan ->
  (exists i, parse_params params = Ok i /\
     plan_salary plan = in_salary i /\
     plan_fixed_expenses plan = in_fixed_expenses i /\
     plan_initial_debt plan = in_initial_debt i /\
     plan_monthly_interest_rate plan = in_monthly_rate i /\
     plan_months plan = in_months i /\
     plan_savings_rate plan = in_savings_rate i) /\
  (zero <! plan_salary plan) = true /\
  (zero <! plan_fixed_expenses plan) = true /\
  (zero <! plan_initial_debt plan) = true /\
  (zero <=! plan_monthly_interest_rate plan) = true /\
  (plan_monthly_interest_rate plan <=! f_lit 1 0) = true /\
  0 < plan_months plan /\
  (zero <=! plan_savings_rate plan) = true /\
  (plan_savings_rate plan <=! f_lit 1 0) = true.
Proof.
  intros H. unfold _calculate_debt_payoff_plan in H. apply rbind_ok in H as (i & Hi & H).
  destruct (plan_of_inv _ _ _ H) as (st & c & _ & Hc & _ & Hdebt & Hrate & Hmonths & _).
  destruct (plan_of_fields _ _ _ H) as (st' & c' & _ & _ & Hsal & Hfix & Hsav & _).
  split; [exists i; by repeat split|].
  rewrite Hsal, Hfix, Hdebt, Hrate, Hmonths, Hsav.
  unfold plan_constraints in Hc.
  repeat match type of Hc with
         | _ && _ = true => let H' := fresh "Hc" in apply andb_prop in Hc as [Hc H']
         end.
  repeat split; try assumption. lia.
Qed.

(** The rows of a returned plan: there is at least one and at most
    [months]; they are numbered 1, 2, 3, ... in order; each repeats the
    plan's salary and fixed expenses and the savings amount
    [round(salary * savings_rate, 2)]; its interest is
    [round(balance * rate, 2)] on the balance the row before left.  A
    cleared plan has [months_to_payoff] equal to the number of rows and a
    last row whose balance is [<= 0]; a plan that is not cleared has
    [months] rows and no [months_to_payoff]. *)
Theorem rows_are_numbered (today : string) (params : gmap string (pyval F))
  (plan : FinanceDebtPlan F) :
  _calculate_debt_payoff_plan today params = Ok plan ->
  let n := length (plan_monthly_rows plan) in
  (1 <= n)%nat /\ Z.of_nat n <= plan_months plan /\
  (forall (k : nat) (row : MonthlyPaymentRow F),
     plan_monthly_rows plan !! k = Some row ->
     row_month row = Z.of_nat k + 1 /\
     row_salary row = plan_salary plan /\
     row_fixed_expenses row = plan_fixed_expenses plan /\
     row_savings_amount row = f_round 2 (plan_salary plan *! plan_savings_rate plan) /\
     row_interest_charged row
     = f_round 2 (balance_before plan k *! plan_monthly_interest_rate plan)) /\
  (if plan_is_debt_cleared plan
   then plan_months_to_payoff plan = Some (Z.of_nat n) /\
        exists row, last (plan_monthly_rows plan) = Some row /\
                    (row_remaining_balance row <=! zero) = true
   else plan_months_to_payoff plan = None /\ Z.of_nat n = plan_months plan).
Proof.
  intros H n. unfold _calculate_debt_payoff_plan in H. apply rbind_ok in H as (i & Hi & H).
  destruct (plan_of_inv _ _ _ H)
    as (st & c & Hloop & Hc & Hrows & _ & Hrate & Hmonths & _ & _ & _ & _ & Hmtp & Hcase).
  destruct (plan_of_fields _ _ _ H) as (st' & c' & _ & _ & Hsal & Hfix & Hsav & _).
  destruct (parse_params_derived _ _ Hi) as [Hamount _].
  assert (Hpos : 0 < in_months i).
  { unfold plan_constraints in Hc.
    repeat match type of Hc with
           | _ && _ = true => let H' := fresh "Hc" in apply andb_prop in Hc as [Hc H']
           end.
    lia. }
  pose proof (month_loop_free_run _ _ _ _ _ _ Hloop) as (k & Hk & Hst & Hk').
  assert (Hn : n = k).
  { unfold n. rewrite Hrows, Hst, free_run_length. reflexivity. }
  assert (Hk1 : (1 <= k)%nat).
  { destruct c; [by destruct Hk' | subst k; lia]. }
  split; [lia|]. split; [lia|]. split.
  - intros j row Hj. rewrite (plan_row_spec _ _ _ _ _ H Hj).
    destruct (month_row_echo i (balance_before plan j) (Z.of_nat j + 1)) as (E1 & E2 & E3).
    rewrite month_row_month, month_row_interest, E1, E2, E3, Hsal, Hfix, Hsav, Hrate, Hamount.
    by repeat split.
  - destruct c as [month|].
    + destruct Hcase as (-> & _). destruct Hk' as (_ & -> & Hle).
      split; [rewrite Hmtp; f_equal; lia|].
      destruct k as [|k']; [lia|].
      destruct (free_run_last_row i k' 1 (initial_state i)) as [Hlast Hbal].
      eexists. split; [rewrite Hrows, Hst; exact Hlast|]. by rewrite <- Hbal, <- Hst.
    + destruct Hcase as (-> & _). split; [exact Hmtp|]. lia.
Qed.

Lemma free_run_totals (i : inputs F) (n : nat) :
  forall (m : Z) (st : loop_state F),
    let rows := rows_from i n m (balance st) in
    let add f := fun total row => f_round 2 (total +! f row) in
    total_interest (free_run i n m st)
    = fold_left (add row_interest_charged) rows (total_interest st) /\
    total_saved (free_run i n m st)
    = fold_left (add row_savings_amount) rows (total_saved st) /\
    total_regular (free_run i n m st)
    = fold_left (add row_debt_payment) rows (total_regular st) /\
    total_one_time (free_run i n m st)
    = fold_left (add row_one_time_payment) rows (total_one_time st).
Proof.
  induction n as [|n IH]; intros m st; simpl; [by repeat split|].
  destruct (IH (m + 1) (month_body i st m)) as (I1 & I2 & I3 & I4).
  rewrite month_body_balance in I1, I2, I3, I4. rewrite I1, I2, I3, I4.
  rewrite month_body_unfold. simpl.
  destruct (month_row_echo i (balance st) m) as (_ & _ & E3). rewrite E3.
  by repeat split.
Qed.

(** The plan's totals are the running sums of its rows' columns, rounded to
    2 decimals after every addition: interest, savings, regular payments and
    one-time payments; every row's total payment is the rounded sum of its
    regular and its one-time payment; and the final balance is [0.0] for a
    cleared plan and the last row's remaining balance otherwise. *)
Theorem totals_are_running_sums (today : string) (params : gmap string (pyval F))
  (plan : FinanceDebtPlan F) :
  _calculate_debt_payoff_plan today params = Ok plan ->
  plan_total_interest_paid plan = running_sum row_interest_charged (plan_monthly_rows plan) /\
  plan_total_saved plan = running_sum row_savings_amount (plan_monthly_rows plan) /\
  plan_total_regular_payments plan = running_sum row_debt_payment (plan_monthly_rows plan) /\
  plan_total_one_time_payments plan
  = running_sum row_one_time_payment (plan_monthly_rows plan) /\
  (forall row, In row (plan_monthly_rows plan) ->
     row_total_payment row = f_round 2 (row_debt_payment row +! row_one_time_payment row)) /\
  exists row, last (plan_monthly_rows plan) = Some row /\
    plan_final_balance plan
    = if plan_is_debt_cleared plan then zero else row_remaining_balance row.
Proof.
  intros H. pose proof H as H0.
  unfold _calculate_debt_payoff_plan in H. apply rbind_ok in H as (i & Hi & H).
  destruct (plan_of_inv _ _ _ H)
    as (st & c & Hloop & Hc & Hrows & _ & _ & _ & Hti & Htr & Hto & _ & _ & Hcase).
  destruct (plan_of_fields _ _ _ H) as (st' & c' & Hloop' & _ & _ & _ & _ & Hts & _).
  rewrite Hloop in Hloop'. injection Hloop' as <- <-.
  pose proof (month_loop_free_run _ _ _ _ _ _ Hloop) as (k & Hk & Hst & Hk').
  destruct (free_run_totals i k 1 (initial_state i)) as (T1 & T2 & T3 & T4).
  assert (Hrows' : plan_monthly_rows plan = rows_from i k 1 (in_initial_debt i)).
  { rewrite Hrows, Hst, free_run_rows. reflexivity. }
  unfold running_sum. rewrite Hti, Hts, Htr, Hto, Hrows', Hst.
  split; [exact T1|]. split; [exact T2|]. split; [exact T3|]. split; [exact T4|]. split.
  - intros row Hin. rewrite <- Hrows' in Hin.
    apply list_elem_of_In, list_elem_of_lookup in Hin as [j Hj].
    rewrite (plan_row_spec _ _ _ _ _ H Hj). apply month_row_total.
  - destruct (nat_pos_succ k) as [k' ->].
    { destruct c; [by destruct Hk'|].
      subst k. unfold plan_constraints in Hc.
      repeat match type of Hc with
             | _ && _ = true => let H' := fresh "Hc" in apply andb_prop in Hc as [Hc H']
             end.
      lia. }
    destruct (free_run_last_row i k' 1 (initial_state i)) as [Hlast Hbal].
    rewrite free_run_rows in Hlast. simpl app in Hlast.
    eexists. split; [exact Hlast|].
    destruct c; destruct Hcase as (-> & -> & _); [reflexivity|].
    by rewrite Hst, Hbal.
Qed.


(** *** What the engine reads *)

(** The engine reads seven keys of its parameters and nothing else: two
    mappings that agree on them ([currency] and any other key may differ)
    give the same result, plan or exception; and the validator does not
    read the parameters at all. *)
Theorem engine_reads_seven_keys (today : string) (params params' : gmap string (pyval F))
  (plan : FinanceDebtPlan F) :
  (forall k, In k engine_keys -> params' !! k = params !! k) ->
  _calculate_debt_payoff_plan today params' = _calculate_debt_payoff_plan today params /\
  _validate_plan plan params' = _validate_plan plan params.
Proof.
  intros H. split; [|reflexivity].
  unfold _calculate_debt_payoff_plan, parse_params, getitem, get_default.
  rewrite !H by (unfold engine_keys; simpl; tauto). reflexivity.
Qed.

(** *** One-time payments the schema rejects, and entries the loop skips *)

Lemma payments_of_raises (items : list (pyval F)) (e : pyval F) (ex : exn) :
  In e items -> one_time_payment_of e = Raise ex -> exists ex', payments_of items = Raise ex'.
Proof.
  induction items as [|x items IH]; intros Hin He; [destruct Hin|].
  simpl. destruct Hin as [->|Hin].
  - rewrite He. simpl. eauto.
  - destruct (one_time_payment_of x); simpl; [|eauto].
    destruct (IH Hin He) as [ex' ->]. simpl. eauto.
Qed.

Lemma parse_params_payments_raise (params : gmap string (pyval F))
  (items : list (pyval F)) (ex : exn) :
  params !! "one_time_payments" = Some (PList items) ->
  payments_of items = Raise ex ->
  exists ex', parse_params params = Raise ex'.
Proof.
  intros Hitems Hraise. unfold parse_params.
  repeat match goal with
         | |- exists e, rbind (py_iter _) _ = Raise e => fail 1
         | |- exists e, rbind ?r _ = Raise e => destruct r; simpl; [|eauto]
         end.
  unfold get_default. rewrite Hitems. simpl.
  rewrite parse_as_payments, Hraise. simpl. eauto.
Qed.

(** An entry of [one_time_payments] that has a month and an amount, but an
    amount that is not above zero once rounded to 2 decimals, is not
    skipped: the schema rejects it and the engine raises, whatever the other
    entries and parameters are. *)
Theorem nonpositive_one_time_amount_aborts (today : string)
  (params : gmap string (pyval F)) (items : list (pyval F))
  (d : list (string * pyval F)) (vm va : pyval F) (a : F) :
  params !! "one_time_payments" = Some (PList items) ->
  In (PDict d) items ->
  items_lookup d "month" = Some vm ->
  items_lookup d "amount" = Some va ->
  py_float va = Ok a ->
  (zero <! f_round 2 a) = false ->
  exists ex, _calculate_debt_payoff_plan today params = Raise ex.
Proof.
  intros Hitems Hin Hm Ha Hfloat Hle.
  assert (He : exists ex, one_time_payment_of (PDict d) = Raise ex).
  { unfold one_time_payment_of. rewrite Hm, Ha.
    destruct (py_int vm) as [m|]; simpl; [|eauto]. rewrite Hfloat. simpl.
    unfold new_OneTimePayment. destruct (negb (0 <? m)); simpl; [eauto|].
    rewrite Hle. simpl. eauto. }
  destruct He as [ex He].
  destruct (payments_of_raises _ _ _ Hin He) as [ex' Hpay].
  destruct (parse_params_payments_raise _ _ _ Hitems Hpay) as [ex'' Hparse].
  exists ex''. unfold _calculate_debt_payoff_plan. by rewrite Hparse.
Qed.

Lemma payments_of_skip (l1 l2 : list (pyval F)) (e : pyval F) :
  one_time_payment_of e = Ok None -> payments_of (l1 ++ e :: l2) = payments_of (l1 ++ l2).
Proof.
  intros He. rewrite !payments_of_app. simpl. rewrite He. simpl.
  destruct (payments_of l1); simpl; [|reflexivity].
  destruct (payments_of l2); reflexivity.
Qed.

Lemma parse_params_same_payments (params params' : gmap string (pyval F))
  (items items' : list (pyval F)) :
  (forall k, k <> "one_time_payments"%string -> params' !! k = params !! k) ->
  params !! "one_time_payments" = Some (PList items) ->
  params' !! "one_time_payments" = Some (PList items') ->
  payments_of items' = payments_of items ->
  parse_params params' = parse_params params.
Proof.
  intros Hsame Hitems Hitems' Hpay. unfold parse_params, getitem, get_default.
  rewrite !Hsame by discriminate. rewrite Hitems, Hitems'. simpl.
  repeat match goal with
         | |- rbind ?r _ = rbind ?r _ => destruct r; simpl; [|reflexivity]
         end.
  by rewrite !parse_as_payments, Hpay.
Qed.

(** An entry of [one_time_payments] that is not an object, or has no
    [month] or no [amount], is skipped without a trace: the engine's result
    is the one it gives for the list without that entry. *)
Theorem malformed_entry_is_skipped (today : string) (params : gmap string (pyval F))
  (l1 l2 : list (pyval F)) (e : pyval F) :
  params !! "one_time_payments" = Some (PList (l1 ++ e :: l2)) ->
  match e with
  | PDict d => items_lookup d "month" = None \/ items_lookup d "amount" = None
  | _ => True
  end ->
  _calculate_debt_payoff_plan today params =
  _calculate_debt_payoff_plan today (<["one_time_payments" := PList (l1 ++ l2)]> params).
Proof.
  intros Hitems He.
  assert (Hskip : one_time_payment_of e = Ok None).
  { destruct e as [| | | | | |d]; try reflexivity. simpl.
    destruct He as [-> | He]; [reflexivity|]. rewrite He.
    by destruct (items_lookup d "month"). }
  unfold _calculate_debt_payoff_plan. f_equal. symmetry.
  apply (parse_params_same_payments _ _ (l1 ++ e :: l2) (l1 ++ l2)).
  - intros k Hk. by rewrite lookup_insert_ne.
  - exact Hitems.
  - by rewrite lookup_insert_eq.
  - symmetry. by apply payments_of_skip.
Qed.

(** *** The validator's list *)

Lemma check_row_app (errs : list string) (prev : F) (row : MonthlyPaymentRow F) :
  exists more, check_row (errs, prev) row = (errs ++ more, row_remaining_balance row).
Proof.
  unfold check_row.
  destruct (_ <! f_lit (-1) 2); destruct (_ <=! _); try destruct (_ +! _ <! _);
    destruct (f_lit 2 2 <! _); rewrite <- ?app_assoc;
    first [ by eexists | by exists []; rewrite app_nil_r ].
Qed.

Lemma check_rows_app (rows : list (MonthlyPaymentRow F)) :
  forall (errs : list string) (prev : F),
    exists more, fst (fold_left check_row rows (errs, prev)) = errs ++ more.
Proof.
  induction rows as [|r rows IH]; intros errs prev; cbn [fold_left].
  - exists []. by rewrite app_nil_r.
  - destruct (check_row_app errs prev r) as [m ->].
    destruct (IH (errs ++ m) (row_remaining_balance r)) as [m' ->].
    exists (m ++ m'). by rewrite app_assoc.
Qed.

Lemma check_bonus_In (months : Z) (otps : list (OneTimePayment F)) (o : OneTimePayment F) :
  forall errs : list string,
    (forall msg, In msg errs -> In msg (fold_left (check_bonus_month months) otps errs)) /\
    (In o otps ->
     (otp_month o <? 1) || (months <? otp_month o) = true ->
     In ("Bonus month " +:+ pretty (otp_month o) +:+ " outside 1-" +:+ pretty months)
        (fold_left (check_bonus_month months) otps errs)).
Proof.
  induction otps as [|x otps IH]; intros errs; simpl.
  - split; [auto | intros []].
  - destruct (IH (check_bonus_month months errs x)) as [IH1 IH2]. split.
    + intros msg Hmsg. apply IH1. unfold check_bonus_month.
      destruct ((otp_month x <? 1) || (months <? otp_month x));
        [apply in_or_app; by left | exact Hmsg].
    + intros [-> | Hin] Hout; [|by apply IH2].
      apply IH1. unfold check_bonus_month. rewrite Hout. apply in_or_app. right. by left.
Qed.

(** A one-time payment scheduled after the plan's last month is accepted by
    the engine and refused by the validator: the executor answers
    [validation_failed], with the plan, and stores nothing.  The list holds
    the message about that payment unless the cash-flow check stopped the
    validation before. *)
Theorem late_bonus_rejects_plan (ctx : context) (reply : option (gmap string (pyval F)))
  (previous params : gmap string (pyval F)) (store : S) (plan : FinanceDebtPlan F)
  (o : OneTimePayment F) :
  _extract_parameters reply previous = Some params ->
  _calculate_debt_payoff_plan (today ctx) params = Ok plan ->
  In o (plan_one_time_payments plan) ->
  plan_months plan < otp_month o ->
  exists errs,
    finance_debt_payoff_executor ctx reply previous store
    = (validation_failed errs plan, store) /\
    (errs = ["No cash for debt: expenses+savings >= salary"] \/
     In ("Bonus month " +:+ pretty (otp_month o) +:+ " outside 1-" +:+ pretty (plan_months plan))
        errs).
Proof.
  intros Hextract Hplan Hin Hlate.
  assert (Herrs : _validate_plan plan params = ["No cash for debt: expenses+savings >= salary"]
                  \/ In ("Bonus month " +:+ pretty (otp_month o) +:+ " outside 1-"
                           +:+ pretty (plan_months plan)) (_validate_plan plan params)).
  { unfold _validate_plan. destruct (_ <=! zero); [by left|]. right.
    destruct (check_rows_app (plan_monthly_rows plan)
                (fold_left (check_bonus_month (plan_months plan))
                   (plan_one_time_payments plan) [])
                (f_round 2 (plan_initial_debt plan))) as [more ->].
    apply in_or_app. left.
    apply (check_bonus_In (plan_months plan) (plan_one_time_payments plan) o []); [exact Hin|].
    apply orb_true_iff. right. by apply Z.ltb_lt. }
  exists (_validate_plan plan params). split; [|exact Herrs].
  unfold finance_debt_payoff_executor.
  rewrite Hextract, (extract_parameters_nonempty _ _ _ Hextract), Hplan.
  destruct (_validate_plan plan params) as [|msg msgs]; [|reflexivity].
  destruct Herrs as [Herrs | []]. discriminate.
Qed.





End MoreEngine.

Section ConversationFacts.
Context {F : Type} {num : PyFloat F}.
Variable ser_float : F -> pyval F.
Variable str_exn : exn -> string.
Variable format_exc : exn -> string.
Variable human_parameters : pyval F -> option (gmap string (pyval F)).
Local Open Scope py_scope.

Lemma first_return_app {A B : Type} (body : A -> option B) (l1 l2 : list A) :
  first_return body (l1 ++ l2) =
  match first_return body l1 with
  | Some b => Some b
  | None => first_return body l2
  end.
Proof.
  induction l1 as [|x l1 IH]; simpl; [reflexivity|].
  destruct (body x); [reflexivity | exact IH].
Qed.

Lemma first_return_none {A B : Type} (body : A -> option B) (l : list A) :
  (forall x, In x l -> body x = None) -> first_return body l = None.
Proof.
  induction l as [|x l IH]; intros H; simpl; [reflexivity|].
  rewrite (H x) by (by left). apply IH. intros y Hy. apply H. by right.
Qed.

Lemma find_previous_at_tool_message (before after : list (message F)) (data : pyval F)
  (previous : gmap string (pyval F)) :
  tool_parameters data = Some previous ->
  (forall msg, In msg after -> from_tool_message msg = None) ->
  _find_previous_parameters human_parameters (before ++ ToolMessage (Some data) :: after)
  = previous.
Proof.
  intros Hdata Hafter. unfold _find_previous_parameters.
  rewrite rev_app_distr. simpl. rewrite <- app_assoc. simpl.
  rewrite first_return_app, first_return_none.
  - simpl. by rewrite Hdata.
  - intros msg Hmsg. apply Hafter. by apply in_rev.
Qed.

(** The parameters a successful answer hands to the next request, given
    how the plan's five numbers were written. *)
Lemma tool_parameters_success (plan : FinanceDebtPlan F) (version calculated_at : string) :
  ser_float (plan_salary plan) = PFloat (plan_salary plan) ->
  ser_float (plan_fixed_expenses plan) = PFloat (plan_fixed_expenses plan) ->
  ser_float (plan_initial_debt plan) = PFloat (plan_initial_debt plan) ->
  ser_float (plan_monthly_interest_rate plan) = PFloat (plan_monthly_interest_rate plan) ->
  ser_float (plan_savings_rate plan) = PFloat (plan_savings_rate plan) ->
  tool_parameters
    (response_content ser_float str_exn format_exc (success plan version calculated_at))
  = Some (<["salary" := PFloat (plan_salary plan)]>
          (<["fixed_expenses" := PFloat (plan_fixed_expenses plan)]>
          (<["debt_amount" := PFloat (plan_initial_debt plan)]>
          (<["interest_rate_percent" :=
               PFloat (f_round 2 (plan_monthly_interest_rate plan *! f_lit 100 0))]>
          (<["months" := PInt (plan_months plan)]>
          (<["savings_rate_percent" :=
               PFloat (f_round 2 (plan_savings_rate plan *! f_lit 100 0))]>
          (<["currency" := PStr "EGP"]> ∅))))))).
Proof.
  intros H1 H2 H3 H4 H5. cbn. rewrite H1, H2, H3, H4, H5. reflexivity.
Qed.

(** The answers that report a failure ([parameter_extraction_failed],
    [validation_failed], an exception) are never a source of previous
    parameters, although [validation_failed] carries a whole plan: only a
    [success] answer is. *)
Theorem failed_answers_are_not_reused (r : response F) :
  (forall plan version calculated_at, r <> success plan version calculated_at) ->
  from_tool_message (tool_message_of ser_float str_exn format_exc r) = None.
Proof.
  intros H. destruct r as [names|errors plan|plan version calculated_at|e]; try reflexivity.
  by destruct (H plan version calculated_at).
Qed.


(** After a successful answer, whatever came before it and whatever
    human, AI or failed tool messages came after it, the previous parameters
    are the plan's salary, fixed expenses and debt as they are, its months,
    its monthly rate and savings rate times 100 rounded to 2 decimals, and
    the currency EGP; there is no entry for the one-time payments.  (The
    plan's five numbers are finite and written as JSON numbers.) *)
Theorem previous_parameters_after_success (plan : FinanceDebtPlan F)
  (version calculated_at : string) (before after : list (message F)) :
  ser_float (plan_salary plan) = PFloat (plan_salary plan) ->
  ser_float (plan_fixed_expenses plan) = PFloat (plan_fixed_expenses plan) ->
  ser_float (plan_initial_debt plan) = PFloat (plan_initial_debt plan) ->
  ser_float (plan_monthly_interest_rate plan) = PFloat (plan_monthly_interest_rate plan) ->
  ser_float (plan_savings_rate plan) = PFloat (plan_savings_rate plan) ->
  (forall msg, In msg after -> from_tool_message msg = None) ->
  _find_previous_parameters human_parameters
    (before ++ tool_message_of ser_float str_exn format_exc
                 (success plan version calculated_at) :: after)
  = <["salary" := PFloat (plan_salary plan)]>
    (<["fixed_expenses" := PFloat (plan_fixed_expenses plan)]>
    (<["debt_amount" := PFloat (plan_initial_debt plan)]>
    (<["interest_rate_percent" :=
         PFloat (f_round 2 (plan_monthly_interest_rate plan *! f_lit 100 0))]>
    (<["months" := PInt (plan_months plan)]>
    (<["savings_rate_percent" :=
         PFloat (f_round 2 (plan_savings_rate plan *! f_lit 100 0))]>
    (<["currency" := PStr "EGP"]> ∅)))))).
Proof.
  intros H1 H2 H3 H4 H5 Hafter. unfold tool_message_of.
  apply find_previous_at_tool_message; [|exact Hafter].
  by apply tool_parameters_success.
Qed.


End ConversationFacts.

(** ** The router *)

Section RouterFacts.
Context {F : Type} {num : PyFloat F}.

Lemma dict_get_In {A : Type} (d : list (string * A)) (k : string) (v : A) :
  dict_get d k = Some v -> In (k, v) d.
Proof.
  induction d as [|[k' v'] d IH]; simpl; [discriminate|].
  destruct (String.eqb_spec k' k) as [->|Hne].
  - intros [= ->]. by left.
  - intros H. right. by apply IH.
Qed.

Lemma Ok_inj {A : Type} (a b : A) : Ok a = Ok b -> a = b.
Proof. by intros [= ->]. Qed.

(** What [get_executor_for_intent] can return: a name the registry lists
    for the assistant type under the intent, which is then a string. *)
Lemma get_executor_for_intent_Some (assistant_type : string) (intent : pyval F)
  (name : string) :
  get_executor_for_intent assistant_type intent = Ok (Some name) ->
  exists s intents,
    intent = PStr s /\ In (assistant_type, intents) INTENT_REGISTRY /\ In (s, name) intents.
Proof.
  unfold get_executor_for_intent.
  destruct intent as [| | | |s| |]; intros H; try discriminate H.
  apply Ok_inj in H.
  destruct (dict_get INTENT_REGISTRY assistant_type) as [intents|] eqn:E;
    [|discriminate]. simpl in H.
  exists s, intents. split; [reflexivity|].
  split; [by apply dict_get_In | by apply dict_get_In].
Qed.

Lemma route_to_executor_cases (assistant_type : string) (messages : list (message F))
  (node : string) :
  route_to_executor assistant_type messages = Ok node ->
  (find_route_intent_call messages = None /\ node = "memory_update"%string) \/
  (exists tc, find_route_intent_call messages = Some tc /\
     (node = "main_assistant"%string \/
      get_executor_for_intent assistant_type
        (default (PStr "other") (items_lookup (tc_args tc) "intent")) = Ok (Some node))).
Proof.
  unfold route_to_executor.
  destruct (find_route_intent_call messages) as [tc|]; [|intros [= <-]; by left].
  intros H. right. exists tc. split; [reflexivity|].
  destruct (get_executor_for_intent _ _) as [[name|]|e]; simpl in H; [| |discriminate].
  - destruct (String.eqb name ""); injection H as <-; auto.
  - injection H as <-. auto.
Qed.

(** The router names the debt payoff executor exactly when the assistant
    type is [finance] and the most recent [RouteIntent] call has the intent
    [debt_payoff_plan]. *)
Theorem debt_payoff_route (assistant_type : string) (messages : list (message F)) :
  route_to_executor assistant_type messages = Ok "finance_debt_payoff_executor"%string <->
  assistant_type = "finance"%string /\
  exists tc, find_route_intent_call messages = Some tc /\
             items_lookup (tc_args tc) "intent" = Some (PStr "debt_payoff_plan").
Proof.
  split.
  - intros H. apply route_to_executor_cases in H as [[_ H]|(tc & Htc & [H|H])];
      try discriminate.
    apply get_executor_for_intent_Some in H as (s & intents & Hs & Hreg & Hin).
    assert (assistant_type = "finance"%string /\ s = "debt_payoff_plan"%string) as [-> ->].
    { simpl in Hreg. destruct Hreg as [[= <- <-]|[[= <- <-]|[]]]; simpl in Hin;
        repeat (destruct Hin as [Hin|Hin]; [by inversion Hin|]); destruct Hin. }
    split; [reflexivity|]. exists tc. split; [exact Htc|].
    destruct (items_lookup (tc_args tc) "intent") as [v|]; simpl in Hs; [by subst|].
    discriminate.
  - intros [-> (tc & Htc & Hintent)]. unfold route_to_executor.
    rewrite Htc, Hintent. reflexivity.
Qed.

(** For every assistant type but [todo], whatever the conversation, a node
    the router names is a key of the mapping the graph gives to the router's
    conditional edges.  For [todo] it is not so: the registry names
    executors the graph does not have. *)
Theorem router_names_a_graph_node (assistant_type : string) (messages : list (message F))
  (node : string) :
  (assistant_type <> "todo"%string ->
   route_to_executor assistant_type messages = Ok node ->
   In node router_path_map) /\
  exists (conversation : list (message F)) (missing : string),
    route_to_executor "todo" conversation = Ok missing /\ ~ In missing router_path_map.
Proof.
  split.
  - intros Htodo H. apply route_to_executor_cases in H as [[_ ->]|(tc & _ & [->|H])].
    + unfold router_path_map. simpl. tauto.
    + unfold router_path_map. simpl. tauto.
    + apply get_executor_for_intent_Some in H as (s & intents & _ & Hreg & Hin).
      simpl in Hreg. destruct Hreg as [[= <- <-]|[[= <- <-]|[]]]; [|done].
      simpl in Hin.
      repeat (destruct Hin as [Hin|Hin];
              [injection Hin as <- <-; unfold router_path_map; simpl; tauto|]).
      destruct Hin.
  - exists [AIMessage [ {| tc_name := "RouteIntent";
                           tc_args := [("intent"%string, PStr "add_task")];
                           tc_id := None |} ]], "todo_add_task_executor"%string.
    split; [reflexivity|]. unfold router_path_map. simpl.
    intros H. repeat (destruct H as [H|H]; [discriminate|]). exact H.
Qed.

(** When [should_continue] sends the conversation to the router, the last
    message is an AI message with a [RouteIntent] call; the router reads
    the first such call of that message and so never answers
    [memory_update]; and the tool call id the executor reads exists: it is
    the id of the first tool call of that message, which may be another
    call than the [RouteIntent] one. *)
Theorem routed_conversation (assistant_type : string) (messages : list (message F)) :
  should_continue messages = Some to_router ->
  exists (tool_calls : list (ToolCall F)) (first route_intent_call : ToolCall F),
    last messages = Some (AIMessage tool_calls) /\
    head tool_calls = Some first /\
    find is_route_intent tool_calls = Some route_intent_call /\
    find_route_intent_call messages = Some route_intent_call /\
    tool_call_id messages = Some (tc_id first) /\
    route_to_executor assistant_type messages <> Ok "memory_update"%string.
Proof.
  intros H. unfold should_continue in H.
  destruct (last messages) as [[c|tcs|d|]|] eqn:Hlast; try discriminate.
  destruct (existsb is_route_intent tcs) eqn:Hex; [|discriminate].
  assert (Hfind : exists tc, find is_route_intent tcs = Some tc).
  { destruct (find is_route_intent tcs) as [tc|] eqn:E; [eauto|].
    apply existsb_exists in Hex as (tc & Hin & Htc).
    by rewrite (find_none _ _ E tc Hin) in Htc. }
  destruct Hfind as [tc Htc].
  assert (Hcall : find_route_intent_call messages = Some tc).
  { unfold find_route_intent_call.
    destruct messages as [|m ms _] using rev_ind; [discriminate|].
    rewrite last_snoc in Hlast. injection Hlast as ->.
    rewrite rev_app_distr. simpl. by rewrite Htc. }
  destruct tcs as [|first tcs]; [discriminate|].
  exists (first :: tcs), first, tc. split; [reflexivity|]. split; [reflexivity|].
  split; [exact Htc|]. split; [exact Hcall|]. split.
  - unfold tool_call_id. by rewrite Hlast.
  - intros Hroute.
    apply route_to_executor_cases in Hroute as [[Hnone _]|(tc' & _ & [?|Hreg])];
      [congruence | discriminate |].
    apply get_executor_for_intent_Some in Hreg as (s & intents & _ & Hreg & Hin).
    simpl in Hreg. destruct Hreg as [[= <- <-]|[[= <- <-]|[]]]; simpl in Hin;
      repeat (destruct Hin as [Hin|Hin]; [discriminate|]); destruct Hin.
Qed.

End RouterFacts.

(** ** The validator on the engine's rows, binary64 *)

Lemma Prim2SF_minus_cent :
  Prim2SF (-0.01)%float = S754_finite true 5764607523034235 (-59).
Proof. vm_compute. reflexivity. Qed.

Lemma b64_not_lt_zero_not_lt_cent (x : float) :
  (x <? 0)%float = false -> (x <? -0.01)%float = false.
Proof.
  rewrite !FloatAxioms.ltb_spec, Prim2SF_zero, Prim2SF_minus_cent.
  destruct (Prim2SF x) as [s|s| |s m e]; try destruct s; intros H;
    try discriminate H; reflexivity.
Qed.

Lemma b64_lit_minus_cent : b64_lit (-1) 2 = (-0.01)%float.
Proof. vm_compute. reflexivity. Qed.

Section Binary64Validator.
Variable pf : platform.
#[local] Hint Extern 0 (PyFloat float) => exact (binary64 pf) : typeclass_instances.
Local Open Scope py_scope.

(** The validator's first check of a row, [remaining_balance < -0.01], is
    false for every row of every plan the engine returns: the message
    [Negative balance] is never about a plan of the engine. *)
Theorem negative_balance_check_never_fires (today : string)
  (params : gmap string (pyval float)) (plan : FinanceDebtPlan float)
  (row : MonthlyPaymentRow float) :
  _calculate_debt_payoff_plan today params = Ok plan ->
  In row (plan_monthly_rows plan) ->
  (row_remaining_balance row <! f_lit (-1) 2) = false.
Proof.
  intros Hplan Hin. unfold _calculate_debt_payoff_plan in Hplan.
  apply rbind_ok in Hplan as (i & Hi & Hplan).
  apply list_elem_of_In, list_elem_of_lookup in Hin as [k Hk].
  rewrite (plan_row_spec _ _ _ _ _ Hplan Hk).
  change (f_lit (-1) 2) with (b64_lit (-1) 2). rewrite b64_lit_minus_cent.
  apply b64_not_lt_zero_not_lt_cent.
  destruct (month_row_remaining i (balance_before plan k) (Z.of_nat k + 1)) as [H|H].
  - rewrite H. reflexivity.
  - exact H.
Qed.

End Binary64Validator.

(** * Worked inputs

    Every statement above that carries a hypothesis is applied here to a
    concrete input on the reference platform, and the inputs on which the
    code departs from a statement of the specification are evaluated. *)

Section Examples.
#[local] Hint Extern 0 (PyFloat float) => exact (binary64 ref_platform) : typeclass_instances.
Local Open Scope py_scope.



(** The scenario with two bonuses is cleared in its fifth month. *)
Lemma payoff_termination_witness :
  exists i plan row,
    parse_params scenario_bonus = Ok i /\
    plan_constraints (in_salary i) (in_fixed_expenses i) (in_initial_debt i)
      (in_monthly_rate i) (in_months i) (in_savings_rate i) = true /\
    _calculate_debt_payoff_plan "2026-01-15" scenario_bonus = Ok plan /\
    plan_is_debt_cleared plan = true /\
    plan_months_to_payoff plan = Some 5 /\
    length (plan_monthly_rows plan) = 5%nat /\
    last (plan_monthly_rows plan) = Some row /\
    (row_remaining_balance row =? 0)%float = true.
Proof.
  pose proof (payoff_termination ref_platform "2026-01-15" scenario_bonus) as T.
  destruct (parse_params scenario_bonus) as [i|e] eqn:Hi;
    [|vm_compute in Hi; discriminate].
  specialize (T i eq_refl).
  vm_compute in Hi. injection Hi as <-.
  destruct (T ltac:(vm_compute; reflexivity)) as [T1 _].
  specialize (T1 5%nat ltac:(vm_compute; lia) ltac:(vm_compute; reflexivity)).
  destruct T1 as (plan & row & Hplan & Hcl & Hmtp & Hlen & Hlast & _ & Hzero).
  { intros j Hj. destruct j as [|[|[|[|[|j]]]]]; try lia; vm_compute; reflexivity. }
  eexists _, plan, row. split; [reflexivity|]. split; [vm_compute; reflexivity|]. auto 10.
Defined.

(** Scenario A on the reference platform. *)
Lemma scenario_A_first_row_witness :
  exists plan row,
    _calculate_debt_payoff_plan "2026-01-15" scenario_A = Ok plan /\
    head (plan_monthly_rows plan) = Some row /\
    row_interest_charged row = 500%float /\
    row_remaining_balance row = 17200%float.
Proof.
  pose proof (scenario_A_first_row ref_platform "2026-01-15") as T.
  destruct (_calculate_debt_payoff_plan "2026-01-15" scenario_A) as [plan|e] eqn:Hp;
    [|vm_compute in Hp; discriminate].
  destruct (T plan eq_refl) as (row & Hhead & _ & Hint & _ & _ & _ & _ & Hbal).
  exists plan, row. auto.
Defined.

(** The last row of the scenario with two bonuses. *)
Lemma remaining_balance_never_negative_witness :
  exists plan row,
    _calculate_debt_payoff_plan "2026-01-15" scenario_bonus = Ok plan /\
    In row (plan_monthly_rows plan) /\
    (row_remaining_balance row <? 0)%float = false /\
    (is_nan (row_remaining_balance row) = true \/
     (0 <=? row_remaining_balance row)%float = true).
Proof.
  pose proof (remaining_balance_never_negative ref_platform "2026-01-15" scenario_bonus) as T.
  destruct (_calculate_debt_payoff_plan "2026-01-15" scenario_bonus) as [plan|e] eqn:Hp;
    [|vm_compute in Hp; discriminate].
  specialize (T plan). vm_compute in Hp. injection Hp as <-.
  eexists _, _. split; [reflexivity|].
  assert (Hin : forall (A : Type) (x : A) (l : list A), In x (x :: l)) by (intros; by left).
  split; [apply Hin|]. apply (T _ eq_refl). apply Hin.
Defined.

(** In the overflow scenario the balance with its interest is infinite and
    so is the month's payment; their difference is a NaN, which the row
    reports.  A NaN is not [>= 0], and the validator finds nothing wrong
    with the plan. *)
Lemma remaining_balance_nan_counterexample :
  exists plan row,
    _calculate_debt_payoff_plan "2026-01-15" scenario_overflow = Ok plan /\
    _validate_plan plan scenario_overflow = [] /\
    plan_monthly_rows plan !! 0%nat = Some row /\
    row_interest_charged row = 1.7e308%float /\
    row_total_payment row = infinity /\
    (0 <=? row_remaining_balance row)%float = false /\
    is_nan (row_remaining_balance row) = true.
Proof.
  eexists _, _. split; [vm_compute; reflexivity|]. split; [vm_compute; reflexivity|].
  split; [vm_compute; reflexivity|]. vm_compute. repeat split.
Defined.





(** A salary of 5000 against expenses of 8000. *)
Lemma no_cash_stops_validation_witness :
  exists plan,
    _calculate_debt_payoff_plan "2026-01-15" scenario_no_cash = Ok plan /\
    (f_round 2 (plan_salary plan -! plan_fixed_expenses plan
                -! f_round 2 (plan_salary plan *! plan_savings_rate plan)) <=! zero) = true /\
    _validate_plan plan scenario_no_cash = ["No cash for debt: expenses+savings >= salary"].
Proof.
  destruct (_calculate_debt_payoff_plan "2026-01-15" scenario_no_cash) as [plan|e] eqn:Hp;
    [|vm_compute in Hp; discriminate].
  vm_compute in Hp. injection Hp as <-.
  eexists. split; [reflexivity|].
  assert (H : forall P Q : Prop, P -> (P -> Q) -> P /\ Q) by tauto.
  apply H; [vm_compute; reflexivity|].
  apply no_cash_stops_validation.
Defined.

(** A reply that only gives the salary. *)
Lemma missing_required_key_fails_witness :
  missing_required (with_defaults (merge_previous reply_salary_only ∅)) <> [] /\
  _extract_parameters (Some reply_salary_only) ∅ = None /\
  finance_debt_payoff_executor example_context (Some reply_salary_only) ∅ ([] : put_log)
  = (parameter_extraction_failed
       ["salary"; "fixed_expenses"; "debt_amount"; "interest_rate"; "months"], []).
Proof.
  assert (H : missing_required (with_defaults (merge_previous reply_salary_only ∅)) <> [])
    by (vm_compute; discriminate).
  split; [exact H|].
  exact (missing_required_key_fails example_context reply_salary_only ∅ [] H).
Defined.

(** The reply gave the salary; the error names it all the same, and names
    [interest_rate], which is no key at all. *)
Lemma extraction_error_names_counterexample :
  exists names,
    fst (finance_debt_payoff_executor example_context (Some reply_salary_only) ∅
           ([] : put_log))
    = parameter_extraction_failed names /\
    missing_required (with_defaults (merge_previous reply_salary_only ∅))
    = ["fixed_expenses"; "debt_amount"; "interest_rate_percent"; "months"] /\
    has_key (with_defaults (merge_previous reply_salary_only ∅)) "salary" = true /\
    In "salary"%string names /\
    names <> missing_required (with_defaults (merge_previous reply_salary_only ∅)).
Proof.
  eexists. split; [vm_compute; reflexivity|]. split; [vm_compute; reflexivity|].
  split; [vm_compute; reflexivity|]. split; [by left|]. vm_compute. discriminate.
Defined.

(** The plan without cash for debt reaches the validator and is not stored. *)
Lemma invalid_plan_not_stored_witness :
  let params := with_defaults (merge_previous scenario_no_cash ∅) in
  exists plan,
    _extract_parameters (Some scenario_no_cash) ∅ = Some params /\
    _calculate_debt_payoff_plan (today example_context) params = Ok plan /\
    _validate_plan plan params = ["No cash for debt: expenses+savings >= salary"] /\
    finance_debt_payoff_executor example_context (Some scenario_no_cash) ∅ ([] : put_log)
    = (validation_failed (_validate_plan plan params) plan, []).
Proof.
  intros params.
  assert (Hkeys : forallb (has_key params) required = true) by (vm_compute; reflexivity).
  assert (He : _extract_parameters (Some scenario_no_cash) ∅ = Some params).
  { rewrite extract_parameters_unfold. cbv zeta. fold params. by rewrite Hkeys. }
  eexists. split; [exact He|]. split; [vm_compute; reflexivity|].
  split; [vm_compute; reflexivity|].
  apply (invalid_plan_not_stored example_context (Some scenario_no_cash) ∅ params
           ([] : put_log) _ He); [vm_compute; reflexivity | vm_compute; discriminate].
Defined.


End Examples.

(** ** Worked inputs for the further properties *)

Section MoreExamples.
#[local] Hint Extern 0 (PyFloat float) => exact (binary64 ref_platform) : typeclass_instances.
Local Open Scope py_scope.

Lemma extraction_of (reply previous : gmap string (pyval float)) :
  forallb (has_key (with_defaults (merge_previous reply previous))) required = true ->
  _extract_parameters (Some reply) previous
  = Some (with_defaults (merge_previous reply previous)).
Proof. intros H. rewrite extract_parameters_unfold. cbv zeta. by rewrite H. Qed.

(** Scenario A against a store that refuses every [put]. *)
Lemma failed_put_is_swallowed_witness :
  exists plan,
    _calculate_debt_payoff_plan "2026-01-15" (with_defaults (merge_previous scenario_A ∅))
    = Ok plan /\
    finance_debt_payoff_executor (store_impl := raising_store) example_context
      (Some scenario_A) ∅ (tt : broken_store)
    = (success plan "2.1_audited" "2026-01-15T10:30:00", tt).
Proof.
  assert (He : _extract_parameters (Some scenario_A) ∅
               = Some (with_defaults (merge_previous scenario_A ∅)))
    by (apply extraction_of; vm_compute; reflexivity).
  eexists. split; [vm_compute; reflexivity|].
  apply (failed_put_is_swallowed (store_impl := raising_store) example_context
           (Some scenario_A) ∅ _ (tt : broken_store) _ OverflowError He);
    [vm_compute; reflexivity | vm_compute; reflexivity | reflexivity].
Defined.


Lemma extracted_value_witness :
  let params := with_defaults (merge_previous reply_months_only scenario_A) in
  _extract_parameters (Some reply_months_only) scenario_A = Some params /\
  params !! "months" = Some (PInt 12) /\
  params !! "salary" = Some (PInt 12000).
Proof.
  intros params.
  assert (He : _extract_parameters (Some reply_months_only) scenario_A = Some params)
    by (apply extraction_of; vm_compute; reflexivity).
  split; [exact He|].
  rewrite !(extracted_value reply_months_only scenario_A params _ He).
  split; vm_compute; reflexivity.
Defined.

Lemma null_required_value_is_an_engine_error_witness :
  exists e,
    finance_debt_payoff_executor example_context (Some scenario_null_salary) ∅
      ([] : put_log) = (error e, []).
Proof.
  assert (He : _extract_parameters (Some scenario_null_salary) ∅
               = Some (with_defaults (merge_previous scenario_null_salary ∅)))
    by (apply extraction_of; vm_compute; reflexivity).
  destruct (null_required_value_is_an_engine_error example_context
              (Some scenario_null_salary) ∅ _ ([] : put_log) "salary" He)
    as (e & _ & H); [by left | vm_compute; reflexivity |].
  by exists e.
Defined.

Lemma returned_plan_meets_schema_witness :
  exists plan,
    _calculate_debt_payoff_plan "2026-01-15" scenario_A = Ok plan /\
    0 < plan_months plan /\
    (plan_monthly_interest_rate plan <=! f_lit 1 0) = true.
Proof.
  destruct (_calculate_debt_payoff_plan "2026-01-15" scenario_A) as [plan|e] eqn:Hp;
    [|vm_compute in Hp; discriminate].
  destruct (returned_plan_meets_schema _ _ _ Hp) as (_ & _ & _ & _ & _ & H5 & H6 & _).
  exists plan. auto.
Defined.

Lemma rows_are_numbered_witness :
  exists plan,
    _calculate_debt_payoff_plan "2026-01-15" scenario_bonus = Ok plan /\
    (1 <= length (plan_monthly_rows plan))%nat /\
    Z.of_nat (length (plan_monthly_rows plan)) <= plan_months plan.
Proof.
  destruct (_calculate_debt_payoff_plan "2026-01-15" scenario_bonus) as [plan|e] eqn:Hp;
    [|vm_compute in Hp; discriminate].
  destruct (rows_are_numbered _ _ _ Hp) as (H1 & H2 & _).
  exists plan. auto.
Defined.

Lemma totals_are_running_sums_witness :
  exists plan,
    _calculate_debt_payoff_plan "2026-01-15" scenario_bonus = Ok plan /\
    plan_total_interest_paid plan = running_sum row_interest_charged (plan_monthly_rows plan) /\
    plan_total_one_time_payments plan
    = running_sum row_one_time_payment (plan_monthly_rows plan).
Proof.
  destruct (_calculate_debt_payoff_plan "2026-01-15" scenario_bonus) as [plan|e] eqn:Hp;
    [|vm_compute in Hp; discriminate].
  destruct (totals_are_running_sums _ _ _ Hp) as (H1 & _ & _ & H4 & _).
  exists plan. auto.
Defined.

Lemma engine_reads_seven_keys_witness :
  _calculate_debt_payoff_plan "2026-01-15" scenario_other_currency
  = _calculate_debt_payoff_plan "2026-01-15" scenario_A.
Proof.
  apply (engine_reads_seven_keys "2026-01-15" scenario_A scenario_other_currency answered_plan).
  intros k Hk. unfold scenario_other_currency. apply lookup_insert_ne.
  unfold engine_keys in Hk. simpl in Hk.
  destruct Hk as [<-|[<-|[<-|[<-|[<-|[<-|[<-|[]]]]]]]]; discriminate.
Defined.

Lemma nonpositive_one_time_amount_aborts_witness :
  exists ex, _calculate_debt_payoff_plan "2026-01-15" scenario_zero_bonus = Raise ex.
Proof.
  apply (nonpositive_one_time_amount_aborts "2026-01-15" scenario_zero_bonus
           [one_time_entry 3 0] [("month"%string, PInt 3); ("amount"%string, PInt 0)]
           (PInt 3) (PInt 0) 0%float).
  - vm_compute. reflexivity.
  - by left.
  - reflexivity.
  - reflexivity.
  - vm_compute. reflexivity.
  - vm_compute. reflexivity.
Defined.

Lemma malformed_entry_is_skipped_witness :
  _calculate_debt_payoff_plan "2026-01-15" scenario_malformed_entry
  = _calculate_debt_payoff_plan "2026-01-15"
      (<["one_time_payments" := PList [one_time_entry 3 5000]]> scenario_malformed_entry).
Proof.
  apply (malformed_entry_is_skipped "2026-01-15" scenario_malformed_entry
           [] [one_time_entry 3 5000] (PStr "bonus")).
  - vm_compute. reflexivity.
  - exact I.
Defined.

Lemma late_bonus_rejects_plan_witness :
  exists plan o errs,
    _calculate_debt_payoff_plan "2026-01-15"
      (with_defaults (merge_previous scenario_late_bonus ∅)) = Ok plan /\
    In o (plan_one_time_payments plan) /\
    otp_month o = 9 /\
    finance_debt_payoff_executor example_context (Some scenario_late_bonus) ∅
      ([] : put_log) = (validation_failed errs plan, []) /\
    (errs = ["No cash for debt: expenses+savings >= salary"] \/
     In ("Bonus month " +:+ pretty 9 +:+ " outside 1-" +:+ pretty 6) errs).
Proof.
  assert (He : _extract_parameters (Some scenario_late_bonus) ∅
               = Some (with_defaults (merge_previous scenario_late_bonus ∅)))
    by (apply extraction_of; vm_compute; reflexivity).
  assert (H : exists plan o,
            _calculate_debt_payoff_plan (today example_context)
              (with_defaults (merge_previous scenario_late_bonus ∅)) = Ok plan /\
            In o (plan_one_time_payments plan) /\ otp_month o = 9 /\ plan_months plan = 6).
  { eexists _, _. split; [vm_compute; reflexivity|]. split; [by left|].
    split; reflexivity. }
  destruct H as (plan & o & Hp & Hin & Ho & Hm).
  destruct (late_bonus_rejects_plan example_context (Some scenario_late_bonus) ∅ _
              ([] : put_log) plan o He Hp Hin) as (errs & Hex & Herrs); [lia|].
  exists plan, o, errs. rewrite Ho, Hm in Herrs. auto.
Defined.


Lemma negative_balance_check_never_fires_witness :
  exists plan row,
    _calculate_debt_payoff_plan "2026-01-15" scenario_A = Ok plan /\
    head (plan_monthly_rows plan) = Some row /\
    (row_remaining_balance row <! f_lit (-1) 2) = false.
Proof.
  assert (H : exists plan row,
            _calculate_debt_payoff_plan "2026-01-15" scenario_A = Ok plan /\
            head (plan_monthly_rows plan) = Some row /\
            In row (plan_monthly_rows plan)).
  { eexists _, _. split; [vm_compute; reflexivity|]. split; [reflexivity | by left]. }
  destruct H as (plan & row & Hp & Hhead & Hin).
  exists plan, row. split; [exact Hp|]. split; [exact Hhead|].
  exact (negative_balance_check_never_fires ref_platform _ _ _ _ Hp Hin).
Defined.

(** An answer that reports missing parameters. *)
Lemma failed_answers_are_not_reused_witness :
  from_tool_message
    (tool_message_of (F := float) PFloat exception_name exception_name
       (parameter_extraction_failed
          ["salary"; "fixed_expenses"; "debt_amount"; "interest_rate"; "months"]))
  = None.
Proof.
  apply (failed_answers_are_not_reused (F := float) PFloat exception_name exception_name).
  intros plan version calculated_at. discriminate.
Defined.

Lemma next_turn_has_no_plan (msg : message float) :
  In msg next_turn -> from_tool_message msg = None.
Proof. intros [<-|[<-|[<-|[]]]]; reflexivity. Qed.

(** The answered plan, then the next turn of the conversation: the rate of
    2.5% comes back, the bonus of the plan does not. *)
Lemma previous_parameters_after_success_witness :
  let previous :=
    _find_previous_parameters no_human_parameters
      ([HumanMessage (PStr "plan my debt")]
       ++ tool_message_of PFloat exception_name exception_name
            (success answered_plan "2.1_audited" "2026-01-15T10:30:00") :: next_turn) in
  previous !! "interest_rate_percent" = Some (PFloat 2.5%float) /\
  previous !! "salary" = Some (PFloat 12000%float) /\
  previous !! "one_time_payments" = None.
Proof.
  intros previous. unfold previous.
  rewrite (previous_parameters_after_success PFloat exception_name exception_name
             no_human_parameters answered_plan "2.1_audited" "2026-01-15T10:30:00"
             [HumanMessage (PStr "plan my debt")] next_turn
             eq_refl eq_refl eq_refl eq_refl eq_refl next_turn_has_no_plan).
  repeat split; vm_compute; reflexivity.
Defined.


Lemma debt_payoff_route_witness :
  route_to_executor "finance" next_turn = Ok "finance_debt_payoff_executor"%string.
Proof.
  apply (proj2 (debt_payoff_route "finance" next_turn)).
  split; [reflexivity|]. exists (route_intent "debt_payoff_plan"). by split.
Defined.

Lemma router_names_a_graph_node_witness :
  In "finance_debt_payoff_executor"%string router_path_map.
Proof.
  apply (proj1 (router_names_a_graph_node "finance" next_turn
                  "finance_debt_payoff_executor")).
  - discriminate.
  - reflexivity.
Defined.

Lemma routed_conversation_witness :
  should_continue next_turn = Some to_router /\
  tool_call_id next_turn = Some (Some "call_1"%string) /\
  route_to_executor "finance" next_turn <> Ok "memory_update"%string.
Proof.
  assert (H : should_continue next_turn = Some to_router) by reflexivity.
  destruct (routed_conversation "finance" next_turn H)
    as (tcs & first & tc & Hlast & Hhead & _ & _ & Hid & Hroute).
  split; [exact H|]. split; [|exact Hroute].
  rewrite Hid. do 2 f_equal. simpl in Hlast. injection Hlast as <-.
  simpl in Hhead. by injection Hhead as <-.
Defined.

End MoreExamples.
